(** * File upload API: a shallow embedding of [app.py] and its properties

    The development follows the layout of the source: the Python built-ins
    the handlers call ([str] methods, [round], true division), the helper
    [secure_filename] of werkzeug, the file system under the upload folder,
    then the helpers and the four handlers of [app.py], and last the
    properties of the naming and path-resolution layer. *)

From Stdlib Require Import Strings.String Strings.Ascii Strings.Byte.
From Stdlib Require Import Numbers.DecimalString.
From Stdlib Require Import ZArith NArith Lia Bool.
From Stdlib Require Import Floats.SpecFloat.
From stdpp Require Import base list gmap.

Local Open Scope N_scope.

(** ** Python strings

    A Python [str] is a sequence of Unicode code points. Literals of the
    source are ASCII and are written [str "..."]. *)

Definition pystr := list N.

Definition str (s : string) : pystr := map N_of_ascii (list_ascii_of_string s).
Arguments str s%_string.

Definition chr (c : ascii) : N := N_of_ascii c.
Arguments chr c%_char.

(** A local calendar time, as [datetime] holds it. *)
Record datetime := {
  year : N; month : N; day : N; hour : N; minute : N; second : N
}.

(** What the program takes from its host through the standard library: the
    Unicode tables behind [unicodedata.normalize("NFKD", s)] and
    [str.lower], consulted only for strings with a non-ASCII character (on
    ASCII strings the first is the identity and the second the ASCII case
    map), and the local time zone behind [datetime.fromtimestamp]. The
    modification times of the model are those [datetime.fromtimestamp]
    converts, the years 1 to 9999; for a time beyond them the real call
    raises, which the model does not show. *)
Record host := {
  unicode_nfkd : pystr -> pystr;
  unicode_lower : pystr -> pystr;
  fromtimestamp : spec_float -> datetime
}.

Module Py.

Definition is_ascii (c : N) : bool := c <? 128.

Definition ascii_lower (c : N) : N :=
  if (65 <=? c) && (c <=? 90) then c + 32 else c.

(** [c in s] for a one-character [c]. *)
Definition contains (c : N) (s : pystr) : bool := existsb (N.eqb c) s.

(** [s.startswith(p)] *)
Fixpoint startswith (s p : pystr) {struct p} : bool :=
  match p, s with
  | [], _ => true
  | _ :: _, [] => false
  | b :: p', a :: s' => (a =? b) && startswith s' p'
  end.

(** [s.rsplit(c, 1)]: at most one split, at the last [c]. *)
Fixpoint rsplit_at (c : N) (s : pystr) : option (pystr * pystr) :=
  match s with
  | [] => None
  | x :: t =>
      match rsplit_at c t with
      | Some (h, e) => Some (x :: h, e)
      | None => if x =? c then Some ([], t) else None
      end
  end.

Definition rsplit1 (c : N) (s : pystr) : list pystr :=
  match rsplit_at c s with
  | Some (h, e) => [h; e]
  | None => [s]
  end.

(** [l[i]] where the source guards the index; the default is never used
    under that guard (see [rsplit1_length]). *)
Definition item (l : list pystr) (i : nat) : pystr := nth i l [].

(** [s.replace(a, b)] for one-character [a] and [b]. *)
Definition replace (a b : N) (s : pystr) : pystr :=
  map (fun c => if c =? a then b else c) s.

(** Characters [str.split()] treats as white space, among ASCII ones:
    TAB, LF, VT, FF, CR, FS, GS, RS, US and the space. *)
Definition is_space (c : N) : bool :=
  ((9 <=? c) && (c <=? 13)) || ((28 <=? c) && (c <=? 31)) || (c =? 32).

(** [s.split()]: the maximal runs of non-space characters. *)
Fixpoint split (s : pystr) : list pystr :=
  match s with
  | [] => []
  | c :: t =>
      if is_space c then split t
      else
        match t with
        | [] => [[c]]
        | d :: _ =>
            if is_space d then [c] :: split t
            else
              match split t with
              | w :: ws => (c :: w) :: ws
              | [] => [[c]]
              end
        end
  end.

(** [sep.join(l)] *)
Fixpoint join (sep : pystr) (l : list pystr) : pystr :=
  match l with
  | [] => []
  | [w] => w
  | w :: ws => w ++ sep ++ join sep ws
  end.

Fixpoint lstrip (cs : pystr) (s : pystr) : pystr :=
  match s with
  | [] => []
  | c :: t => if contains c cs then lstrip cs t else s
  end.

Definition rstrip (cs : pystr) (s : pystr) : pystr :=
  rev (lstrip cs (rev s)).

(** [s.strip(cs)] *)
Definition strip (cs : pystr) (s : pystr) : pystr := rstrip cs (lstrip cs s).

Section Unicode.
Variable H : host.

(** [s.lower()] *)
Definition lower (s : pystr) : pystr :=
  if forallb is_ascii s then map ascii_lower s else unicode_lower H s.

(** [unicodedata.normalize("NFKD", s)] *)
Definition nfkd (s : pystr) : pystr :=
  if forallb is_ascii s then s else unicode_nfkd H s.
End Unicode.

(** [s.encode("ascii", "ignore").decode("ascii")] *)
Definition ascii_ignore (s : pystr) : pystr := List.filter is_ascii s.

End Py.

(** ** werkzeug's [secure_filename], on a POSIX host

    The function [app.py] imports from [werkzeug.utils]: NFKD
    normalisation, the ASCII encoding that ignores what it cannot encode,
    each separator replaced by a space, the words joined by ["_"], every
    character outside [[A-Za-z0-9_.-]] deleted, and dots and underscores
    stripped from both ends. [os.sep] is ["/"], [os.path.altsep] is [None]
    and [os.name] is not ["nt"], so only ["/"] is replaced by a space and
    the branch for the Windows device names is not taken. *)

(** The class [[A-Za-z0-9_.-]], whose complement
    [_filename_ascii_strip_re] deletes. *)
Definition filename_char (c : N) : bool :=
  ((65 <=? c) && (c <=? 90)) || ((97 <=? c) && (c <=? 122))
  || ((48 <=? c) && (c <=? 57))
  || (c =? chr "_") || (c =? chr ".") || (c =? chr "-").

Definition filename_ascii_strip (s : pystr) : pystr := List.filter filename_char s.

Section SecureFilename.
Variable H : host.

Definition secure_filename (filename : pystr) : pystr :=
  let filename := Py.nfkd H filename in
  let filename := Py.ascii_ignore filename in
  let filename := Py.replace (chr "/") (chr " ") filename in
  Py.strip (str "._")
    (filename_ascii_strip (Py.join (str "_") (Py.split filename))).
End SecureFilename.

(** ** Python numbers

    A [float] is an IEEE 754 binary64 value, with the operations of the
    standard library's specification of binary floating point: results are
    rounded to nearest, ties to even. *)

Module PyFloat.

Definition float := spec_float.
Definition prec : Z := 53.
Definition emax : Z := 1024.

(** An integer as an exact operand (the mantissa is not normalised). *)
Definition exact (z : Z) : float :=
  match z with
  | Z0 => S754_zero false
  | Zpos p => S754_finite false p 0
  | Zneg p => S754_finite true p 0
  end.

(** [float(z)] *)
Definition of_int (z : Z) : float := binary_normalize prec emax z 0 false.

(** [a / b] on two [int]s, [b] not zero: the quotient is rounded once. *)
Definition truediv (a b : Z) : float := SFdiv prec emax (exact a) (exact b).

(** [x + y] *)
Definition add (x y : float) : float := SFadd prec emax x y.

(** The integer nearest to [m * 2^e], ties to even. *)
Definition nearest_even (m e : Z) : Z :=
  match e with
  | Zneg p =>
      let d := Z.pow_pos 2 p in
      let q := (m / d)%Z in
      match (2 * (m mod d) ?= d)%Z with
      | Lt => q
      | Gt => (q + 1)%Z
      | Eq => if Z.even q then q else (q + 1)%Z
      end
  | _ => (m * 2 ^ e)%Z
  end.

(** [round(x, 2)]: the exact value of [x] is rounded to two decimals,
    ties to even, and the decimal is converted back to the nearest
    [float]; infinities and NaN are returned as they are. *)
Definition round2 (x : float) : float :=
  match x with
  | S754_finite s m e =>
      match nearest_even (Zpos m * 100) e with
      | Zpos n => SFdiv prec emax (S754_finite s n 0) (exact 100)
      | _ => S754_zero s
      end
  | _ => x
  end.

End PyFloat.

(** A Python number: the listing starts its total as the [int] 0 and adds
    [float]s to it. *)
Inductive pynum :=
  | PInt (z : Z)
  | PFloat (f : PyFloat.float).

Definition to_float (n : pynum) : PyFloat.float :=
  match n with
  | PInt z => PyFloat.of_int z
  | PFloat f => f
  end.

(** [a + b] *)
Definition py_add (a b : pynum) : pynum :=
  match a, b with
  | PInt x, PInt y => PInt (x + y)
  | _, _ => PFloat (PyFloat.add (to_float a) (to_float b))
  end.

(** [round(a, 2)]: an [int] is returned unchanged. *)
Definition py_round2 (a : pynum) : pynum :=
  match a with
  | PInt z => PInt z
  | PFloat f => PFloat (PyFloat.round2 f)
  end.

(** [repr(x)], as an f-string inserts it, for the floats whose value is a
    whole number below 10^16: the digits of the number and [".0"]. Other
    floats need the shortest-digits algorithm, which is not modelled. *)
Definition float_repr (x : PyFloat.float) : option pystr :=
  match x with
  | S754_zero false => Some (str "0.0")
  | S754_finite false m e =>
      let n := PyFloat.nearest_even (Zpos m) e in
      if (SFeqb (PyFloat.of_int n) x && (n <? 10 ^ 16)%Z)%bool
      then Some (str (NilZero.string_of_uint (N.to_uint (Z.to_N n))) ++ str ".0")
      else None
  | _ => None
  end.

(** ** Dates and identifiers *)

Definition digit (n : N) : N := 48 + n mod 10.
Definition digits2 (n : N) : pystr := [digit (n / 10); digit n].
Definition digits4 (n : N) : pystr :=
  [digit (n / 1000); digit (n / 100); digit (n / 10); digit n].

(** The directives the source uses, zero-padded as the C library does for
    the years 1000 to 9999 of a [datetime.now()]. *)
Definition directive (d : datetime) (k : N) : pystr :=
  if k =? chr "Y" then digits4 (year d)
  else if k =? chr "m" then digits2 (month d)
  else if k =? chr "d" then digits2 (day d)
  else if k =? chr "H" then digits2 (hour d)
  else if k =? chr "M" then digits2 (minute d)
  else if k =? chr "S" then digits2 (second d)
  else [chr "%"; k].

(** [d.strftime(fmt)] *)
Fixpoint strftime (d : datetime) (fmt : pystr) : pystr :=
  match fmt with
  | [] => []
  | c :: rest =>
      if c =? chr "%" then
        match rest with
        | k :: rest' => directive d k ++ strftime d rest'
        | [] => [c]
        end
      else c :: strftime d rest
  end.

Definition hex_digit (n : N) : N :=
  let d := n mod 16 in if d <? 10 then 48 + d else 87 + d.

(** ['%032x' % u] for the 128-bit integer of a UUID *)
Definition uuid_hex (u : N) : pystr :=
  map (fun i => hex_digit (N.shiftr u (4 * (31 - N.of_nat i)))) (seq 0 32).

(** [str(u)]: the 32 hexadecimal digits in groups of 8-4-4-4-12 *)
Definition uuid_str (u : N) : pystr :=
  let h := uuid_hex u in
  take 8 h ++ str "-" ++ take 4 (drop 8 h) ++ str "-" ++ take 4 (drop 12 h)
    ++ str "-" ++ take 4 (drop 16 h) ++ str "-" ++ drop 20 h.

(** ** Configuration *)

Record config := {
  UPLOAD_FOLDER : pystr;
  MAX_FILE_SIZE : Z;
  ALLOWED_EXTENSIONS : list pystr;
  DANGEROUS_EXTENSIONS : list pystr
}.

(** The values [app.py] sets at start-up. *)
Definition app_config : config := {|
  UPLOAD_FOLDER := str "uploads";
  MAX_FILE_SIZE := 5 * 1024 * 1024;
  ALLOWED_EXTENSIONS := [str "png"; str "jpg"; str "jpeg"; str "gif"; str "pdf"];
  DANGEROUS_EXTENSIONS :=
    [str "exe"; str "sh"; str "bat"; str "cmd"; str "com"; str "pif";
     str "scr"; str "vbs"; str "js"]
|}.

(** [x in s] for a set of strings *)
Definition member (x : pystr) (s : list pystr) : bool := bool_decide (x ∈ s).

(** ** The upload folder on disk

    The program touches the file system only below [UPLOAD_FOLDER], through
    paths [os.path.join(UPLOAD_FOLDER, name)]. The model holds the entries
    of that one directory: regular files, sub-directories and symbolic
    links, a link carrying the canonical path of what it leads to, anywhere
    on the disk, and that object when it exists.

    Each link holds the object it leads to by itself: the model follows a
    folder step by step only where no two names share an object, that is
    where the names written or removed are not reached through a link.
    The properties of several steps state that condition. *)

Definition bytes := list Byte.byte.

Inductive obj :=
  | RegularFile (data : bytes) (mtime : PyFloat.float)
  | Directory.

Inductive node :=
  | Plain (o : obj)
  | Symlink (real : pystr) (target : option obj).

Record filesystem := {
  upload_real : pystr;   (* os.path.realpath(UPLOAD_FOLDER) *)
  listable : bool;       (* whether os.listdir(UPLOAD_FOLDER) succeeds *)
  entries : gmap pystr node
}.

Module Os.

Definition endswith (s p : pystr) : bool := Py.startswith (rev s) (rev p).

(** [posixpath.join(a, b)] *)
Definition path_join (a b : pystr) : pystr :=
  if Py.startswith b (str "/") then b
  else if bool_decide (a = []) || endswith a (str "/") then a ++ b
  else a ++ str "/" ++ b.

(** Where a path of the program leads: the folder itself, an entry of the
    folder, or somewhere the model does not cover. *)
Inductive place :=
  | Folder
  | Entry (name : pystr)
  | Elsewhere.

Section Folder.
Variable folder : pystr.

Definition locate (path : pystr) : place :=
  let prefix := path_join folder [] in
  if bool_decide (path = folder) then Folder
  else if Py.startswith path prefix then
    match drop (length prefix) path with
    | [] => Folder
    | name => Entry name
    end
  else Elsewhere.

(** The object a name of the folder denotes, links followed. *)
Definition resolve (fs : filesystem) (name : pystr) : option obj :=
  match entries fs !! name with
  | Some (Plain o) => Some o
  | Some (Symlink _ target) => target
  | None => None
  end.

(** [os.path.realpath(path)] *)
Definition realpath (fs : filesystem) (path : pystr) : pystr :=
  match locate path with
  | Folder => upload_real fs
  | Entry name =>
      match entries fs !! name with
      | Some (Symlink real _) => real
      | _ => path_join (upload_real fs) name
      end
  | Elsewhere => path
  end.

(** [os.path.exists(path)] *)
Definition exists_ (fs : filesystem) (path : pystr) : bool :=
  match locate path with
  | Folder => true
  | Entry name => bool_decide (is_Some (resolve fs name))
  | Elsewhere => false
  end.

(** [os.path.isfile(path)] *)
Definition isfile (fs : filesystem) (path : pystr) : bool :=
  match locate path with
  | Entry name =>
      match resolve fs name with
      | Some (RegularFile _ _) => true
      | _ => false
      end
  | _ => false
  end.

(** The regular file behind a path, if there is one. *)
Definition regular (fs : filesystem) (path : pystr) : option (bytes * PyFloat.float) :=
  match locate path with
  | Entry name =>
      match resolve fs name with
      | Some (RegularFile data mtime) => Some (data, mtime)
      | _ => None
      end
  | _ => None
  end.

(** [os.path.getsize(path)], asked of regular files only; [None] is the
    [OSError] of a path that is not there. *)
Definition getsize (fs : filesystem) (path : pystr) : option Z :=
  match regular fs path with
  | Some (data, _) => Some (Z.of_nat (length data))
  | None => None
  end.

(** [os.path.getmtime(path)] *)
Definition getmtime (fs : filesystem) (path : pystr) : option PyFloat.float :=
  match regular fs path with
  | Some (_, mtime) => Some mtime
  | None => None
  end.

(** What [send_file(path)] reads; [None] when opening the path raises.
    The process runs in the directory of the application, so that a
    relative path means the same file to [send_file] and to [os.path]. *)
Definition read (fs : filesystem) (path : pystr) : option bytes :=
  match regular fs path with
  | Some (data, _) => Some data
  | None => None
  end.

Definition with_entries (fs : filesystem) (es : gmap pystr node) : filesystem :=
  {| upload_real := upload_real fs; listable := listable fs; entries := es |}.

(** The bytes a code point takes in UTF-8, the encoding of file names. *)
Definition utf8_size (c : N) : nat :=
  if c <? 128 then 1 else if c <? 2048 then 2 else if c <? 65536 then 3 else 4.

(** The length of a name as the file system counts it. *)
Definition name_bytes (name : pystr) : nat :=
  fold_right (fun c n => (utf8_size c + n)%nat) 0%nat name.

(** The longest name a directory accepts, in bytes. *)
Definition NAME_MAX : nat := 255.

(** [file.save(path)]: [open(path, "wb")] and a copy of the stream. A
    name longer than [NAME_MAX] bytes makes [open] raise ([None], the
    [OSError] "File name too long"); otherwise a new name is created, a
    regular file is truncated and rewritten, a link is followed, and
    opening a directory raises. *)
Definition save (fs : filesystem) (path : pystr) (data : bytes)
    (mtime : PyFloat.float) : option filesystem :=
  match locate path with
  | Entry name =>
      if (NAME_MAX <? name_bytes name)%nat then None
      else
        match entries fs !! name with
        | None | Some (Plain (RegularFile _ _)) =>
            Some (with_entries fs (<[name := Plain (RegularFile data mtime)]> (entries fs)))
        | Some (Symlink real (None | Some (RegularFile _ _))) =>
            Some (with_entries fs
                    (<[name := Symlink real (Some (RegularFile data mtime))]> (entries fs)))
        | Some (Plain Directory) | Some (Symlink _ (Some Directory)) => None
        end
  | _ => None
  end.

(** [os.remove(path)]: unlinks a regular file or a link (not its target);
    [None] is the [OSError] for a directory or a missing name. *)
Definition remove (fs : filesystem) (path : pystr) : option filesystem :=
  match locate path with
  | Entry name =>
      match entries fs !! name with
      | Some (Plain (RegularFile _ _)) | Some (Symlink _ _) =>
          Some (with_entries fs (delete name (entries fs)))
      | Some (Plain Directory) | None => None
      end
  | _ => None
  end.

(** [os.listdir(folder)], in the order the directory yields its names;
    [None] when the directory cannot be read. *)
Definition listdir (fs : filesystem) : option (list pystr) :=
  if listable fs then Some ((map_to_list (entries fs)).*1) else None.

End Folder.
End Os.

(** ** Requests and responses *)

(** The check mark U+2705 that opens the success messages. *)
Definition check_mark : pystr := [9989; 32].

(** An entry of [request.files]: the client's file name and the stream. *)
Record file_storage := {
  filename : pystr;
  stream : bytes
}.

(** A piece of an f-string: literal text, or a [float] to be inserted. *)
Inductive fragment :=
  | Lit (s : pystr)
  | Flt (x : PyFloat.float).

(** The arguments of [jsonify]. A Python [set] turned into a list keeps
    the order in which the set is written here. *)
#[warnings="-register-all"]
Inductive json :=
  | JStr (s : pystr)
  | JFmt (parts : list fragment)
  | JNum (n : pynum)
  | JList (l : list json)
  | JDict (items : list (pystr * json)).

(** What a view function does: return a body with a status, return the
    attachment built by [send_file], or let an exception escape. *)
Inductive response :=
  | Reply (body : json) (status : Z)
  | Attachment (path : pystr) (data : bytes)
  | Raised.

(** The text of an f-string, where its floats can be rendered. *)
Fixpoint render (parts : list fragment) : option pystr :=
  match parts with
  | [] => Some []
  | Lit s :: rest => option_map (app s) (render rest)
  | Flt x :: rest =>
      match float_repr x, render rest with
      | Some s, Some r => Some (s ++ r)
      | _, _ => None
      end
  end.

Definition status (r : response) : option Z :=
  match r with
  | Reply _ code => Some code
  | Attachment _ _ => Some 200%Z
  | Raised => None
  end.

(** [body[key]] of a JSON object *)
Fixpoint field (key : pystr) (items : list (pystr * json)) : option json :=
  match items with
  | [] => None
  | (k, v) :: rest => if bool_decide (k = key) then Some v else field key rest
  end.

Definition body_field (key : pystr) (r : response) : option json :=
  match r with
  | Reply (JDict items) _ => field key items
  | _ => None
  end.

(** What one call of [upload] draws from its surroundings: the UUID, the
    clock at the two calls of [datetime.now()], and the modification time
    the file receives. *)
Record occasion := {
  uuid4 : N;
  now : datetime;
  written : PyFloat.float;
  now_after : datetime
}.

(** ** The helpers and handlers of [app.py] *)

Section App.
Variable H : host.
Variable cfg : config.

Definition allowed_file (filename : pystr) : bool :=
  if negb (Py.contains (chr ".") filename) then false
  else
    let ext := Py.lower H (Py.item (Py.rsplit1 (chr ".") filename) 1) in
    if member ext (DANGEROUS_EXTENSIONS cfg) then false
    else member ext (ALLOWED_EXTENSIONS cfg).

Definition generate_unique_filename (u : N) (t : datetime)
    (original_filename : pystr) : pystr :=
  let ext :=
    if Py.contains (chr ".") original_filename
    then Py.lower H (Py.item (Py.rsplit1 (chr ".") original_filename) 1)
    else [] in
  let name :=
    if Py.contains (chr ".") original_filename
    then Py.item (Py.rsplit1 (chr ".") original_filename) 0
    else original_filename in
  let safe_name := secure_filename H name in
  let unique_id := take 8 (uuid_str u) in
  let timestamp := strftime t (str "%Y%m%d_%H%M%S") in
  unique_id ++ str "_" ++ timestamp ++ str "_" ++ safe_name ++ str "." ++ ext.

Definition get_file_size_mb (fs : filesystem) (filepath : pystr)
    : option PyFloat.float :=
  match Os.getsize (UPLOAD_FOLDER cfg) fs filepath with
  | Some size_bytes =>
      Some (PyFloat.round2 (PyFloat.truediv size_bytes (1024 * 1024)))
  | None => None
  end.

Definition too_large_message : list fragment :=
  let max_mb := PyFloat.truediv (MAX_FILE_SIZE cfg) (1024 * 1024) in
  [Lit (str "File too large! Maximum "); Flt max_mb; Lit (str "MB allowed")].

Definition upload (files : option file_storage) (o : occasion)
    (fs : filesystem) : response * filesystem :=
  match files with
  | None => (Reply (JDict [(str "error", JStr (str "No file provided"))]) 400, fs)
  | Some file =>
      if bool_decide (filename file = []) then
        (Reply (JDict [(str "error", JStr (str "No file selected"))]) 400, fs)
      else
        let file_size := Z.of_nat (length (stream file)) in
        if (file_size >? MAX_FILE_SIZE cfg)%Z then
          (Reply (JDict [(str "error", JFmt too_large_message)]) 413, fs)
        else if negb (allowed_file (filename file)) then
          (Reply (JDict [(str "error", JStr (str "File type not allowed"));
                         (str "allowed_types",
                          JList (map JStr (ALLOWED_EXTENSIONS cfg)))]) 400, fs)
        else
          let unique_filename :=
            generate_unique_filename (uuid4 o) (now o) (filename file) in
          let filepath := Os.path_join (UPLOAD_FOLDER cfg) unique_filename in
          match Os.save (UPLOAD_FOLDER cfg) fs filepath (stream file) (written o) with
          | None => (Raised, fs)
          | Some fs' =>
              match get_file_size_mb fs' filepath with
              | None => (Raised, fs')
              | Some file_size_mb =>
                  (Reply (JDict [
                     (str "message", JStr (check_mark ++ str "File uploaded successfully"));
                     (str "original_name", JStr (filename file));
                     (str "saved_as", JStr unique_filename);
                     (str "size_mb", JNum (PFloat file_size_mb));
                     (str "uploaded_at",
                      JStr (strftime (now_after o) (str "%Y-%m-%d %H:%M:%S")));
                     (str "download_url", JStr (str "/download/" ++ unique_filename))
                   ]) 200, fs')
              end
          end
  end.

Definition download (filename : pystr) (fs : filesystem) : response :=
  let filename := secure_filename H filename in
  let filepath := Os.path_join (UPLOAD_FOLDER cfg) filename in
  let real_path := Os.realpath (UPLOAD_FOLDER cfg) fs filepath in
  let upload_folder_real := Os.realpath (UPLOAD_FOLDER cfg) fs (UPLOAD_FOLDER cfg) in
  if negb (Py.startswith real_path upload_folder_real) then
    Reply (JDict [(str "error", JStr (str "Access denied"))]) 403
  else if negb (Os.exists_ (UPLOAD_FOLDER cfg) fs filepath) then
    Reply (JDict [(str "error", JStr (str "File not found"))]) 404
  else
    match Os.read (UPLOAD_FOLDER cfg) fs filepath with
    | Some data => Attachment filepath data
    | None => Raised
    end.

(** One round of the loop of [files]: the entry is skipped unless it is a
    regular file, else its size is added and its description appended. *)
Definition files_step (fs : filesystem) (acc : option (list json * pynum))
    (filename : pystr) : option (list json * pynum) :=
  match acc with
  | None => None
  | Some (files_list, total_size_mb) =>
      let filepath := Os.path_join (UPLOAD_FOLDER cfg) filename in
      if negb (Os.isfile (UPLOAD_FOLDER cfg) fs filepath) then acc
      else
        match Os.getsize (UPLOAD_FOLDER cfg) fs filepath,
              Os.getmtime (UPLOAD_FOLDER cfg) fs filepath with
        | Some file_size, Some upload_time =>
            let file_size_mb :=
              PyFloat.round2 (PyFloat.truediv file_size (1024 * 1024)) in
            let total_size_mb := py_add total_size_mb (PFloat file_size_mb) in
            let upload_date :=
              strftime (fromtimestamp H upload_time) (str "%Y-%m-%d %H:%M:%S") in
            Some (files_list ++ [JDict [
                    (str "filename", JStr filename);
                    (str "size_mb", JNum (PFloat file_size_mb));
                    (str "uploaded", JStr upload_date);
                    (str "download_url", JStr (str "/download/" ++ filename))]],
                  total_size_mb)
        | _, _ => None
        end
  end.

Definition files (fs : filesystem) : response :=
  match Os.listdir fs with
  | None => Reply (JDict [(str "error", JStr (str "Cannot read files"))]) 500
  | Some all_files =>
      match fold_left (files_step fs) all_files (Some ([], PInt 0)) with
      | None => Raised
      | Some (files_list, total_size_mb) =>
          Reply (JDict [
            (str "total_files", JNum (PInt (Z.of_nat (length files_list))));
            (str "total_size_mb", JNum (py_round2 total_size_mb));
            (str "files", JList files_list)]) 200
      end
  end.

Definition delete_ (filename : pystr) (fs : filesystem) : response * filesystem :=
  let filename := secure_filename H filename in
  let filepath := Os.path_join (UPLOAD_FOLDER cfg) filename in
  let real_path := Os.realpath (UPLOAD_FOLDER cfg) fs filepath in
  let upload_folder_real := Os.realpath (UPLOAD_FOLDER cfg) fs (UPLOAD_FOLDER cfg) in
  if negb (Py.startswith real_path upload_folder_real) then
    (Reply (JDict [(str "error", JStr (str "Access denied"))]) 403, fs)
  else if negb (Os.exists_ (UPLOAD_FOLDER cfg) fs filepath) then
    (Reply (JDict [(str "error", JStr (str "File not found"))]) 404, fs)
  else
    match Os.remove (UPLOAD_FOLDER cfg) fs filepath with
    | Some fs' =>
        (Reply (JDict [(str "message", JStr (check_mark ++ str "File deleted successfully"));
                       (str "filename", JStr filename)]) 200, fs')
    | None =>
        (Reply (JDict [(str "error", JStr (str "Failed to delete file"))]) 500, fs)
    end.

End App.

(** [p in s] for a string [p] *)
Fixpoint has_sub (p s : pystr) : bool :=
  Py.startswith s p || match s with [] => false | _ :: t => has_sub p t end.

(** ** Reference definitions for the properties *)

(** Containment at a directory boundary, as the specification words it:
    the path is the root itself or continues it after a separator. *)
Definition contained_at_boundary (root path : pystr) : bool :=
  bool_decide (path = root) || Py.startswith path (Os.path_join root []).

(** A host whose tables leave every string as it is; the examples use
    ASCII names, for which no table is consulted. *)
Definition plain_host : host := {|
  unicode_nfkd := fun s => s;
  unicode_lower := fun s => s;
  fromtimestamp := fun _ => Build_datetime 1970 1 1 0 0 0
|}.

(** The sizes [files] adds up: those of the names that are regular files,
    in listing order. *)
Definition listed_sizes (cfg : config) (fs : filesystem) (names : list pystr)
    : list Z :=
  omap (fun n =>
          let p := Os.path_join (UPLOAD_FOLDER cfg) n in
          if Os.isfile (UPLOAD_FOLDER cfg) fs p
          then Os.getsize (UPLOAD_FOLDER cfg) fs p else None) names.

(** A size in MiB as the listing computes it. *)
Definition size_mb (size : Z) : PyFloat.float :=
  PyFloat.round2 (PyFloat.truediv size (1024 * 1024)).

(** A name under which [file.save] writes a regular file of the folder:
    free, or held by a regular file. *)
Definition plain_slot (fs : filesystem) (name : pystr) : bool :=
  match entries fs !! name with
  | None | Some (Plain (RegularFile _ _)) => true
  | _ => false
  end.

(** The lower-cased last extension of a name with a dot, as [allowed_file]
    and [generate_unique_filename] compute it. *)
Definition extension (H : host) (filename : pystr) : pystr :=
  Py.lower H (Py.item (Py.rsplit1 (chr ".") filename) 1).

(** The last character of a string, when it is neither a dot nor an
    underscore. *)
Definition ends_plainly (s : pystr) : bool :=
  match rev s with
  | d :: _ => negb (Py.contains d (str "._"))
  | [] => false
  end.

(** ** Stores used in the examples *)

Definition epoch : PyFloat.float := S754_zero false.

(** An empty folder whose canonical path is [/srv/uploads]. *)
Definition empty_store : filesystem := {|
  upload_real := str "/srv/uploads";
  listable := true;
  entries := ∅
|}.

(** A folder of canonical path [/data/uploads] holding a link into the
    sibling directory [/data/uploads2]. *)
Definition sibling_store : filesystem := {|
  upload_real := str "/data/uploads";
  listable := true;
  entries :=
    {[ str "report.pdf" :=
         Symlink (str "/data/uploads2/report.pdf")
                 (Some (RegularFile [x73; x65; x63; x72; x65; x74]%byte epoch)) ]}
|}.

(** A folder holding a link whose target, outside the folder, is gone. *)
Definition dangling_store : filesystem := {|
  upload_real := str "/srv/uploads";
  listable := true;
  entries := {[ str "ghost.pdf" := Symlink (str "/tmp/ghost.pdf") None ]}
|}.

(** A folder holding two regular files of 5243 bytes each. *)
Definition two_small_files : filesystem := {|
  upload_real := str "/srv/uploads";
  listable := true;
  entries :=
    {[ str "a.pdf" := Plain (RegularFile (repeat x00%byte (N.to_nat 5243)) epoch);
       str "b.pdf" := Plain (RegularFile (repeat x00%byte (N.to_nat 5243)) epoch) ]}
|}.

(** A configuration whose allow-set also names an executable extension. *)
Definition careless_config : config := {|
  UPLOAD_FOLDER := UPLOAD_FOLDER app_config;
  MAX_FILE_SIZE := MAX_FILE_SIZE app_config;
  ALLOWED_EXTENSIONS := str "exe" :: ALLOWED_EXTENSIONS app_config;
  DANGEROUS_EXTENSIONS := DANGEROUS_EXTENSIONS app_config
|}.

Definition sample_occasion : occasion := {|
  uuid4 := 0xa1b2c3d4e5f647a8b9c0d1e2f3a4b5c6;
  now := Build_datetime 2024 11 7 9 5 3;
  written := epoch;
  now_after := Build_datetime 2024 11 7 9 5 4
|}.

(** [file.tell()] at the end of the stream *)
Definition size_of (file : file_storage) : Z := Z.of_nat (length (stream file)).

Definition not_found : json := JDict [(str "error", JStr (str "File not found"))].
Definition access_denied : json := JDict [(str "error", JStr (str "Access denied"))].

(** A file of 6 MiB named [report.exe]: too large and of a refused type. *)
Definition six_mib_exe : file_storage :=
  {| filename := str "report.exe";
     stream := repeat x00%byte (N.to_nat 6291456) |}.

(** A small picture sent as [photo.PNG]. *)
Definition photo : file_storage :=
  {| filename := str "photo.PNG";
     stream := [x89; x50; x4e; x47; x0d; x0a; x1a; x0a]%byte |}.

(** ** The remaining handlers of [app.py] *)

Section Info.
Variable cfg : config.

(** [info]: the count of regular files is taken without a [try], so the
    exception of [os.listdir] escapes. *)
Definition info (fs : filesystem) : response :=
  match Os.listdir fs with
  | None => Raised
  | Some names =>
      let total_files :=
        length (List.filter
                  (fun f => Os.isfile (UPLOAD_FOLDER cfg) fs
                              (Os.path_join (UPLOAD_FOLDER cfg) f)) names) in
      Reply (JDict [
        (str "api_name", JStr (str "Secure File Upload API"));
        (str "version", JStr (str "2.0"));
        (str "security_features", JList [
           JStr (str "Unique filename generation");
           JStr (str "Path traversal protection");
           JStr (str "Dangerous extension blocking");
           JStr (str "File size check before upload");
           JStr (str "Secure filename sanitization")]);
        (str "config", JDict [
           (str "upload_folder", JStr (UPLOAD_FOLDER cfg));
           (str "max_file_size_mb",
            JNum (PFloat (PyFloat.truediv (MAX_FILE_SIZE cfg) (1024 * 1024))));
           (str "allowed_extensions", JList (map JStr (ALLOWED_EXTENSIONS cfg)));
           (str "blocked_extensions", JList (map JStr (DANGEROUS_EXTENSIONS cfg)))]);
        (str "statistics", JDict [
           (str "total_files", JNum (PInt (Z.of_nat total_files)))]);
        (str "endpoints", JDict [
           (str "upload", JStr (str "POST /upload"));
           (str "download", JStr (str "GET /download/<filename>"));
           (str "list", JStr (str "GET /files"));
           (str "delete", JStr (str "DELETE /delete/<filename>"));
           (str "info", JStr (str "GET /info"))])]) 200
  end.

(** The handler registered for the status 413. *)
Definition file_too_large : response :=
  Reply (JDict [(str "error", JFmt (too_large_message cfg))]) 413.

(** The handler registered for the status 500. *)
Definition internal_error : response :=
  Reply (JDict [(str "error", JStr (str "Internal server error"))]) 500.

End Info.

(** ** Further reference definitions *)

(** The item [files] appends for a name that is a regular file. *)
Definition listing_item (H : host) (cfg : config) (fs : filesystem)
    (n : pystr) : option json :=
  match Os.regular (UPLOAD_FOLDER cfg) fs (Os.path_join (UPLOAD_FOLDER cfg) n) with
  | Some (data, mtime) =>
      Some (JDict [
        (str "filename", JStr n);
        (str "size_mb", JNum (PFloat (size_mb (Z.of_nat (length data)))));
        (str "uploaded",
         JStr (strftime (fromtimestamp H mtime) (str "%Y-%m-%d %H:%M:%S")));
        (str "download_url", JStr (str "/download/" ++ n))])
  | None => None
  end.

(** [j[key]] for a JSON object [j] *)
Definition json_field (key : pystr) (j : json) : option json :=
  match j with
  | JDict items => field key items
  | _ => None
  end.

(** The 32 bits of a UUID that its first eight hexadecimal digits show. *)
Definition uuid_top32 (u : N) : N := N.shiftr u 96 mod 2 ^ 32.

(** The bytes of a float that is the positive zero. *)
Definition is_positive_zero (x : PyFloat.float) : bool :=
  match x with
  | S754_zero false => true
  | _ => false
  end.

(** Names as a directory holds them: not empty and without a separator. *)
Definition entry_names_plain (fs : filesystem) : Prop :=
  forall n, is_Some (entries fs !! n) ->
            n <> [] /\ Py.contains (chr "/") n = false.

(** A folder holding a sub-directory and a dangling link only. *)
Definition no_regular_store : filesystem := {|
  upload_real := str "/srv/uploads";
  listable := true;
  entries := {[ str "old" := Plain Directory;
                str "ghost.pdf" := Symlink (str "/srv/uploads/gone.pdf") None ]}
|}.

(** A folder that cannot be listed. *)
Definition unreadable_store : filesystem := {|
  upload_real := str "/srv/uploads";
  listable := false;
  entries := ∅
|}.

(** A folder holding one regular file and one sub-directory. *)
Definition mixed_store : filesystem := {|
  upload_real := str "/srv/uploads";
  listable := true;
  entries := {[ str "a.pdf" := Plain (RegularFile [x25; x50; x44; x46]%byte epoch);
                str "old" := Plain Directory ]}
|}.




(** A part of 6 MiB sent without a file name. *)
Definition unnamed_six_mib : file_storage :=
  {| filename := [];
     stream := repeat x00%byte (N.to_nat 6291456) |}.


Ltac to_prop :=
  repeat first
    [ rewrite orb_true_iff in * | rewrite andb_true_iff in *
    | rewrite orb_false_iff in * | rewrite andb_false_iff in *
    | rewrite negb_true_iff in * | rewrite negb_false_iff in *
    | rewrite N.leb_le in * | rewrite N.leb_gt in *
    | rewrite N.ltb_lt in * | rewrite N.ltb_ge in *
    | rewrite N.eqb_eq in * | rewrite N.eqb_neq in * ].

Ltac char_class :=
  unfold filename_char, Py.is_ascii, Py.is_space, chr in *;
  cbn [N_of_ascii N_of_digits N.add N.mul] in *;
  change (N_of_ascii "_") with 95 in *;
  change (N_of_ascii ".") with 46 in *;
  change (N_of_ascii "-") with 45 in *;
  to_prop; lia.

(** ** Properties of the string operations *)

Lemma startswith_app (p s : pystr) : Py.startswith (p ++ s) p = true.
Proof.
  induction p as [|c p IH]; simpl; [done|].
  by rewrite N.eqb_refl, IH.
Qed.

Lemma startswith_refl (p : pystr) : Py.startswith p p = true.
Proof. rewrite <- (app_nil_r p) at 1. apply startswith_app. Qed.

Lemma startswith_prefix (s p : pystr) :
  Py.startswith s p = true -> s = p ++ drop (length p) s.
Proof.
  revert s; induction p as [|b p IH]; intros [|a s]; simpl; try done.
  rewrite andb_true_iff, N.eqb_eq. intros [-> Hs]. f_equal. by apply IH.
Qed.

Lemma contains_false_forall (c : N) (s : pystr) :
  Py.contains c s = false <-> Forall (fun x => x <> c) s.
Proof.
  induction s as [|x s IH]; simpl.
  - split; [constructor | done].
  - rewrite orb_false_iff, IH, N.eqb_neq, Forall_cons.
    split; intros [? ?]; split; congruence.
Qed.

Lemma contains_rsplit_at (c : N) (s : pystr) :
  Py.contains c s = true -> exists h e, Py.rsplit_at c s = Some (h, e).
Proof.
  induction s as [|x s IH]; simpl; [done|].
  destruct (Py.rsplit_at c s) as [[h e]|] eqn:E; [eauto|].
  rewrite orb_true_iff. intros [Hx|Hs].
  - apply N.eqb_eq in Hx. subst. rewrite N.eqb_refl. eauto.
  - destruct (IH Hs) as (? & ? & ?). done.
Qed.

(** Under the guard ['.' in filename] of the source, [rsplit('.', 1)] has
    the two items the source indexes. *)
Lemma rsplit1_length (c : N) (s : pystr) :
  Py.contains c s = true -> length (Py.rsplit1 c s) = 2%nat.
Proof.
  intros Hc. unfold Py.rsplit1.
  destruct (contains_rsplit_at c s Hc) as (h & e & ->). done.
Qed.

Lemma forallb_filter_id {A} (f : A -> bool) (l : list A) :
  forallb f l = true -> List.filter f l = l.
Proof.
  induction l as [|x l IH]; simpl; [done|].
  rewrite andb_true_iff. intros [-> Hl]. by rewrite IH.
Qed.

Lemma forallb_filter {A} (f : A -> bool) (l : list A) :
  forallb f (List.filter f l) = true.
Proof.
  induction l as [|x l IH]; simpl; [done|].
  destruct (f x) eqn:E; simpl; [by rewrite E|done].
Qed.

Lemma lstrip_suffix (cs s : pystr) : exists pre, s = pre ++ Py.lstrip cs s.
Proof.
  induction s as [|c s [pre IH]]; simpl.
  - by exists [].
  - destruct (Py.contains c cs).
    + exists (c :: pre). simpl. by f_equal.
    + by exists [].
Qed.

Lemma rstrip_prefix (cs s : pystr) : exists post, s = Py.rstrip cs s ++ post.
Proof.
  unfold Py.rstrip. destruct (lstrip_suffix cs (rev s)) as [pre E].
  exists (rev pre). rewrite <- rev_app_distr, <- E. by rewrite rev_involutive.
Qed.

Lemma lstrip_head (cs s : pystr) (c : N) (t : pystr) :
  Py.lstrip cs s = c :: t -> Py.contains c cs = false.
Proof.
  induction s as [|x s IH]; simpl; [done|].
  destruct (Py.contains x cs) eqn:E; [done|].
  intros [= -> _]. done.
Qed.

Lemma lstrip_id (cs s : pystr) (c : N) (t : pystr) :
  s = c :: t -> Py.contains c cs = false -> Py.lstrip cs s = s.
Proof. intros -> Hc. simpl. by rewrite Hc. Qed.

Lemma forallb_lstrip (f : N -> bool) (cs s : pystr) :
  forallb f s = true -> forallb f (Py.lstrip cs s) = true.
Proof.
  destruct (lstrip_suffix cs s) as [pre E]. rewrite E at 1.
  rewrite forallb_app, andb_true_iff. tauto.
Qed.

Lemma forallb_rstrip (f : N -> bool) (cs s : pystr) :
  forallb f s = true -> forallb f (Py.rstrip cs s) = true.
Proof.
  destruct (rstrip_prefix cs s) as [post E]. rewrite E at 1.
  rewrite forallb_app, andb_true_iff. tauto.
Qed.

Lemma strip_head (cs s : pystr) (c : N) (t : pystr) :
  Py.strip cs s = c :: t -> Py.contains c cs = false.
Proof.
  unfold Py.strip. intros E.
  destruct (rstrip_prefix cs (Py.lstrip cs s)) as [post Hp].
  rewrite E in Hp. simpl in Hp. by eapply lstrip_head.
Qed.

Lemma strip_id (cs s : pystr) (c d : N) (t pre : pystr) :
  s = c :: t -> Py.contains c cs = false ->
  s = pre ++ [d] -> Py.contains d cs = false ->
  Py.strip cs s = s.
Proof.
  intros Hs Hc Hl Hd. unfold Py.strip.
  rewrite (lstrip_id cs s c t Hs Hc). unfold Py.rstrip.
  replace (rev s) with (d :: rev pre) by (by rewrite Hl, rev_app_distr).
  simpl. rewrite Hd. simpl. by rewrite rev_involutive, Hl.
Qed.

Lemma split_no_space (s : pystr) :
  s <> [] -> forallb (fun c => negb (Py.is_space c)) s = true ->
  Py.split s = [s].
Proof.
  induction s as [|c s IH]; [done|]. intros _. simpl.
  rewrite andb_true_iff, negb_true_iff. intros [-> Hs].
  destruct s as [|d s]; [done|].
  pose proof Hs as Hs'. simpl in Hs'.
  apply andb_true_iff in Hs' as [Hd _]. apply negb_true_iff in Hd.
  rewrite Hd. rewrite IH; done.
Qed.

Lemma replace_id (a b : N) (s : pystr) :
  Py.contains a s = false -> Py.replace a b s = s.
Proof.
  unfold Py.replace. induction s as [|x s IH]; simpl; [done|].
  rewrite orb_false_iff. intros [Hx Hs]. rewrite N.eqb_sym, Hx. by rewrite IH.
Qed.

(** ** Character classes *)

Lemma filename_char_ascii (c : N) : filename_char c = true -> Py.is_ascii c = true.
Proof. intros Hc. char_class. Qed.

Lemma filename_char_not_space (c : N) :
  filename_char c = true -> negb (Py.is_space c) = true.
Proof. intros Hc. char_class. Qed.

Lemma filename_char_digit (c : N) : 48 <= c <= 57 -> filename_char c = true.
Proof. intros Hc. char_class. Qed.

Lemma filename_char_lowercase (c : N) : 97 <= c <= 122 -> filename_char c = true.
Proof. intros Hc. char_class. Qed.

Lemma forallb_impl {A} (f g : A -> bool) (l : list A) :
  (forall x, f x = true -> g x = true) ->
  forallb f l = true -> forallb g l = true.
Proof.
  intros Hfg. induction l as [|x l IH]; simpl; [done|].
  rewrite !andb_true_iff. intros [Hx Hl]. auto.
Qed.

Lemma forallb_not_contains (f : N -> bool) (c : N) (s : pystr) :
  f c = false -> forallb f s = true -> Py.contains c s = false.
Proof.
  intros Hc. induction s as [|x s IH]; simpl; [done|].
  rewrite andb_true_iff. intros [Hx Hs]. rewrite IH by done.
  rewrite orb_false_r. apply N.eqb_neq. congruence.
Qed.

(** ** Properties of [secure_filename] *)

Section SecureFilenameFacts.
Variable H : host.

(** The result is made of the characters [[A-Za-z0-9_.-]] only. *)
Lemma secure_filename_chars (s : pystr) :
  forallb filename_char (secure_filename H s) = true.
Proof.
  unfold secure_filename, Py.strip.
  apply forallb_rstrip, forallb_lstrip, forallb_filter.
Qed.

(** It does not begin with a dot or an underscore. *)
Lemma secure_filename_head (s : pystr) (c : N) (t : pystr) :
  secure_filename H s = c :: t -> c <> chr "." /\ c <> chr "_".
Proof.
  intros E. apply strip_head in E. simpl in E.
  rewrite !orb_false_iff, !N.eqb_neq in E. tauto.
Qed.

(** It holds no separator, so it is a single path component. *)
Lemma secure_filename_no_separator (s : pystr) :
  Py.contains (chr "/") (secure_filename H s) = false
  /\ Py.contains (chr "\") (secure_filename H s) = false.
Proof.
  split; eapply forallb_not_contains;
    eauto using secure_filename_chars; reflexivity.
Qed.

(** It is never one of the two special components. *)
Lemma secure_filename_not_dots (s : pystr) :
  secure_filename H s <> str "." /\ secure_filename H s <> str "..".
Proof.
  split; intros E; apply secure_filename_head in E as [E _]; by apply E.
Qed.

(** A name of safe characters that neither begins nor ends with a dot or
    an underscore is left as it is. *)
Lemma secure_filename_fixed (s : pystr) (c d : N) (t pre : pystr) :
  forallb filename_char s = true ->
  s = c :: t -> Py.contains c (str "._") = false ->
  s = pre ++ [d] -> Py.contains d (str "._") = false ->
  secure_filename H s = s.
Proof.
  intros Hs Hhd Hc Hlast Hd. unfold secure_filename, Py.nfkd, Py.ascii_ignore.
  rewrite (forallb_impl _ _ _ filename_char_ascii Hs).
  rewrite forallb_filter_id
    by exact (forallb_impl _ _ _ filename_char_ascii Hs).
  rewrite replace_id by (eapply forallb_not_contains; eauto; reflexivity).
  rewrite split_no_space.
  - simpl. unfold filename_ascii_strip. rewrite forallb_filter_id by done.
    eapply strip_id; eauto.
  - by rewrite Hhd.
  - exact (forallb_impl _ _ _ filename_char_not_space Hs).
Qed.

(** The traversal name of the specification becomes a plain name. *)
Lemma secure_filename_etc_passwd :
  secure_filename H (str "../../etc/passwd") = str "etc_passwd".
Proof. reflexivity. Qed.

End SecureFilenameFacts.

(** ** Properties of the paths the handlers build *)

Lemma path_join_relative (a b : pystr) :
  Py.startswith b (str "/") = false ->
  Os.path_join a b = Os.path_join a [] ++ b.
Proof.
  intros Hb. unfold Os.path_join. rewrite Hb. simpl.
  destruct (bool_decide (a = []) || Os.endswith a (str "/")).
  - by rewrite app_nil_r.
  - by rewrite <- !app_assoc.
Qed.

Lemma path_join_empty_length (a : pystr) :
  (length a <= length (Os.path_join a []))%nat.
Proof.
  unfold Os.path_join. simpl.
  destruct (bool_decide (a = []) || Os.endswith a (str "/"));
    rewrite ?length_app; simpl; lia.
Qed.

Lemma locate_folder (folder : pystr) : Os.locate folder folder = Os.Folder.
Proof. unfold Os.locate. by rewrite bool_decide_eq_true_2. Qed.

Lemma locate_join_empty (folder : pystr) :
  Os.locate folder (Os.path_join folder []) = Os.Folder.
Proof.
  unfold Os.locate. case_bool_decide; [done|].
  by rewrite startswith_refl, drop_all.
Qed.

(** A non-empty relative name joined onto the folder is an entry of it. *)
Lemma locate_join_entry (folder name : pystr) :
  name <> [] -> Py.startswith name (str "/") = false ->
  Os.locate folder (Os.path_join folder name) = Os.Entry name.
Proof.
  intros Hne Hrel. rewrite (path_join_relative _ _ Hrel). unfold Os.locate.
  rewrite bool_decide_eq_false_2.
  - rewrite startswith_app, drop_app_length. by destruct name.
  - intros E. apply (f_equal length) in E. rewrite length_app in E.
    pose proof (path_join_empty_length folder).
    destruct name; [done|]. simpl in E. lia.
Qed.

Lemma head_not_slash (name : pystr) (c : N) (t : pystr) :
  name = c :: t -> c <> chr "/" -> Py.startswith name (str "/") = false.
Proof.
  intros -> Hc. simpl. rewrite andb_true_r. by apply N.eqb_neq.
Qed.

(** Every path [download] and [delete_] ask about is the folder or one of
    its entries. *)
Lemma locate_secure (H : host) (folder name : pystr) :
  let n := secure_filename H name in
  Os.locate folder (Os.path_join folder n)
  = if bool_decide (n = []) then Os.Folder else Os.Entry n.
Proof.
  intros n. case_bool_decide as E.
  - rewrite E. apply locate_join_empty.
  - apply locate_join_entry; [done|].
    destruct n as [|c t] eqn:En; [done|].
    pose proof (secure_filename_chars H name) as Hc. fold n in Hc.
    rewrite En in Hc. simpl in Hc. apply andb_true_iff in Hc as [Hc _].
    eapply head_not_slash; [done|]. intros ->. done.
Qed.

(** The canonical path of an entry that is not a link continues the
    canonical path of the folder. *)
Lemma realpath_plain_entry (folder : pystr) (fs : filesystem) (name : pystr) :
  name <> [] -> Py.startswith name (str "/") = false ->
  (forall real target, entries fs !! name <> Some (Symlink real target)) ->
  Py.startswith (Os.realpath folder fs (Os.path_join folder name))
                (Os.realpath folder fs folder) = true.
Proof.
  intros Hne Hrel Hlink. unfold Os.realpath.
  rewrite locate_folder, (locate_join_entry _ _ Hne Hrel).
  destruct (entries fs !! name) as [[o|real target]|] eqn:E.
  - rewrite (path_join_relative _ _ Hrel).
    unfold Os.path_join; simpl.
    destruct (bool_decide (upload_real fs = []) || _);
      rewrite <- ?app_assoc; apply startswith_app.
  - by destruct (Hlink real target).
  - rewrite (path_join_relative _ _ Hrel).
    unfold Os.path_join; simpl.
    destruct (bool_decide (upload_real fs = []) || _);
      rewrite <- ?app_assoc; apply startswith_app.
Qed.

(** ** Properties of the generated names *)

Lemma hex_digit_char (n : N) : filename_char (hex_digit n) = true.
Proof.
  unfold hex_digit. cbv zeta.
  assert (n mod 16 < 16) as Hd by (apply N.mod_upper_bound; lia).
  revert Hd. generalize (n mod 16). intros d Hd.
  destruct (d <? 10) eqn:E.
  - apply filename_char_digit. apply N.ltb_lt in E. lia.
  - apply filename_char_lowercase. apply N.ltb_ge in E. lia.
Qed.

Lemma hex_digit_plain (n : N) : Py.contains (hex_digit n) (str "._/") = false.
Proof.
  unfold hex_digit. cbv zeta.
  assert (n mod 16 < 16) as Hd by (apply N.mod_upper_bound; lia).
  revert Hd. generalize (n mod 16). intros d Hd.
  destruct (d <? 10) eqn:E; simpl;
    rewrite !orb_false_iff, !N.eqb_neq;
    [apply N.ltb_lt in E | apply N.ltb_ge in E]; lia.
Qed.

Lemma digit_char (n : N) : filename_char (digit n) = true.
Proof.
  unfold digit.
  assert (n mod 10 < 10) as Hd by (apply N.mod_upper_bound; lia).
  revert Hd. generalize (n mod 10). intros d Hd.
  apply filename_char_digit. lia.
Qed.

(** [str(uuid.uuid4())[:8]]: the first eight hexadecimal digits. *)
Lemma unique_id_digits (u : N) :
  take 8 (uuid_str u)
  = map (fun i => hex_digit (N.shiftr u (4 * (31 - N.of_nat i)))) (seq 0 8).
Proof. reflexivity. Qed.

Lemma unique_id_chars (u : N) :
  forallb filename_char (take 8 (uuid_str u)) = true.
Proof.
  rewrite unique_id_digits. generalize (seq 0 8). intros l.
  induction l as [|i l IH]; [done|].
  cbn [map forallb]. by rewrite hex_digit_char, IH.
Qed.

Lemma unique_id_head (u : N) :
  exists c t, take 8 (uuid_str u) = c :: t
              /\ Py.contains c (str "._/") = false.
Proof.
  rewrite unique_id_digits. cbn [map seq]. eexists _, _. split; [done|].
  apply hex_digit_plain.
Qed.

Lemma strftime_compact (t : datetime) :
  strftime t (str "%Y%m%d_%H%M%S")
  = digits4 (year t) ++ digits2 (month t) ++ digits2 (day t) ++ str "_"
    ++ digits2 (hour t) ++ digits2 (minute t) ++ digits2 (second t).
Proof. reflexivity. Qed.

Lemma timestamp_chars (t : datetime) :
  forallb filename_char (strftime t (str "%Y%m%d_%H%M%S")) = true.
Proof.
  rewrite strftime_compact. unfold digits4, digits2.
  rewrite !forallb_app. cbn [forallb]. by rewrite !digit_char.
Qed.

Lemma ends_plainly_last (s : pystr) :
  ends_plainly s = true ->
  exists pre d, s = pre ++ [d] /\ Py.contains d (str "._") = false.
Proof.
  unfold ends_plainly. destruct (rev s) as [|d r] eqn:E; [done|].
  intros Hd. exists (rev r), d. split; [|by apply negb_true_iff].
  by rewrite <- (rev_involutive s), E.
Qed.

(** The extensions [app.py] allows are plain lower-case words. *)
Lemma allowed_extension_plain (ext : pystr) :
  member ext (ALLOWED_EXTENSIONS app_config) = true ->
  forallb filename_char ext = true /\ ends_plainly ext = true.
Proof.
  unfold member. rewrite bool_decide_eq_true. simpl.
  rewrite !elem_of_cons, elem_of_nil.
  intros [->|[->|[->|[->|[->|[]]]]]]; by split.
Qed.

Section Naming.
Variable H : host.

Lemma allowed_file_true (cfg : config) (filename : pystr) :
  allowed_file H cfg filename = true ->
  Py.contains (chr ".") filename = true
  /\ member (extension H filename) (DANGEROUS_EXTENSIONS cfg) = false
  /\ member (extension H filename) (ALLOWED_EXTENSIONS cfg) = true.
Proof.
  unfold allowed_file, extension.
  destruct (Py.contains (chr ".") filename); simpl; [|done].
  destruct (member _ (DANGEROUS_EXTENSIONS cfg)); [done|]. auto.
Qed.

Lemma unique_filename_shape (u : N) (t : datetime) (original : pystr) :
  Py.contains (chr ".") original = true ->
  generate_unique_filename H u t original
  = take 8 (uuid_str u) ++ str "_" ++ strftime t (str "%Y%m%d_%H%M%S")
    ++ str "_"
    ++ secure_filename H (Py.item (Py.rsplit1 (chr ".") original) 0)
    ++ str "." ++ extension H original.
Proof. intros E. unfold generate_unique_filename. by rewrite E. Qed.

(** The name begins with a hexadecimal digit. *)
Lemma unique_filename_head (u : N) (t : datetime) (original : pystr) :
  exists c rest, generate_unique_filename H u t original = c :: rest
                 /\ Py.contains c (str "._/") = false.
Proof.
  unfold generate_unique_filename.
  destruct (unique_id_head u) as (c & rest & -> & Hc).
  simpl. eauto.
Qed.

Lemma unique_filename_chars (u : N) (t : datetime) (original : pystr) :
  allowed_file H app_config original = true ->
  forallb filename_char (generate_unique_filename H u t original) = true.
Proof.
  intros Ha. apply allowed_file_true in Ha as (Hdot & _ & Hext).
  apply allowed_extension_plain in Hext as [Hext _].
  rewrite (unique_filename_shape _ _ _ Hdot).
  rewrite !forallb_app, unique_id_chars, timestamp_chars,
    secure_filename_chars, Hext. reflexivity.
Qed.

Lemma unique_filename_last (u : N) (t : datetime) (original : pystr) :
  allowed_file H app_config original = true ->
  exists pre d, generate_unique_filename H u t original = pre ++ [d]
                /\ Py.contains d (str "._") = false.
Proof.
  intros Ha. apply allowed_file_true in Ha as (Hdot & _ & Hext).
  apply allowed_extension_plain in Hext as [_ Hext].
  apply ends_plainly_last in Hext as (pre & d & E & Hd).
  rewrite (unique_filename_shape _ _ _ Hdot), E.
  eexists _, d. split; [|done]. by rewrite !app_assoc.
Qed.

(** Sanitising a generated name again gives it back: the name Upload
    reports is the name Download and Delete look up. *)
Lemma unique_filename_fixed (u : N) (t : datetime) (original : pystr) :
  allowed_file H app_config original = true ->
  secure_filename H (generate_unique_filename H u t original)
  = generate_unique_filename H u t original.
Proof.
  intros Ha.
  destruct (unique_filename_head u t original) as (c & rest & Hhd & Hc).
  destruct (unique_filename_last u t original Ha) as (pre & d & Hl & Hd).
  eapply secure_filename_fixed; eauto using unique_filename_chars.
  simpl in *. rewrite !orb_false_iff in *. tauto.
Qed.

End Naming.

(** ** The extension policy *)

(** C4. A file name whose lower-cased last extension is in the deny-set is
    rejected by [allowed_file], whatever the allow-set holds: the deny-set
    is consulted first and decides alone. *)
Theorem deny_set_decides_first (H : host) (cfg : config) (filename : pystr) :
  Py.contains (chr ".") filename = true ->
  member (extension H filename) (DANGEROUS_EXTENSIONS cfg) = true ->
  allowed_file H cfg filename = false.
Proof.
  intros Hdot Hdeny. unfold allowed_file. fold (extension H filename).
  by rewrite Hdot, Hdeny.
Qed.

(** [report.exe] is rejected even under a configuration that lists [exe]
    among the allowed extensions as well. *)
Lemma deny_set_decides_first_witness :
  Py.contains (chr ".") (str "report.exe") = true
  /\ member (extension plain_host (str "report.exe"))
            (DANGEROUS_EXTENSIONS careless_config) = true
  /\ member (extension plain_host (str "report.exe"))
            (ALLOWED_EXTENSIONS careless_config) = true
  /\ allowed_file plain_host careless_config (str "report.exe") = false.
Proof.
  split; [reflexivity|]. split; [reflexivity|]. split; [reflexivity|].
  apply (deny_set_decides_first plain_host careless_config (str "report.exe"));
    reflexivity.
Defined.

(** The nine extensions of the source's deny-set. *)
Lemma deny_set_of_app :
  Forall (fun e => member e (DANGEROUS_EXTENSIONS app_config) = true)
    [str "exe"; str "sh"; str "bat"; str "cmd"; str "com"; str "pif";
     str "scr"; str "vbs"; str "js"].
Proof. repeat constructor. Qed.

(** The scenarios of the specification. *)
Lemma allowed_file_examples :
  allowed_file plain_host app_config (str "photo.PNG") = true
  /\ allowed_file plain_host app_config (str "report.exe") = false
  /\ allowed_file plain_host app_config (str "archive.tar.JS") = false
  /\ allowed_file plain_host app_config (str "README") = false.
Proof. repeat split. Qed.

(** ** Upload: the checks and their order *)

Section UploadChecks.
Variable H : host.
Variable cfg : config.

Lemma upload_too_large (file : file_storage) (o : occasion) (fs : filesystem) :
  filename file <> [] -> (size_of file > MAX_FILE_SIZE cfg)%Z ->
  upload H cfg (Some file) o fs
  = (Reply (JDict [(str "error", JFmt (too_large_message cfg))]) 413, fs).
Proof.
  intros Hname Hsize. unfold upload.
  rewrite bool_decide_eq_false_2 by exact Hname.
  fold (size_of file).
  destruct (Z.gtb_spec (size_of file) (MAX_FILE_SIZE cfg)); [reflexivity|lia].
Qed.

Lemma upload_413 (files : option file_storage) (o : occasion) (fs : filesystem) :
  status (upload H cfg files o fs).1 = Some 413%Z ->
  exists file, files = Some file /\ filename file <> []
               /\ (size_of file > MAX_FILE_SIZE cfg)%Z.
Proof.
  unfold upload. destruct files as [file|]; [|discriminate].
  case_bool_decide as Hname; [discriminate|]. fold (size_of file).
  destruct (Z.gtb_spec (size_of file) (MAX_FILE_SIZE cfg)) as [Hgt|Hle].
  - intros _. exists file. split; [reflexivity|]. split; [exact Hname|lia].
  - destruct (allowed_file H cfg (filename file)); cbn [negb]; [|discriminate].
    destruct (Os.save _ _ _ _ _); [|discriminate].
    destruct (get_file_size_mb _ _ _); discriminate.
Qed.
End UploadChecks.

Section UploadOrder.
Variable H : host.
Variable cfg : config.

(** C8, as the code has it. In [upload] the size check comes before the
    type check: a file with a non-empty name that is too large and whose
    extension is not allowed is answered 413 with the size message, not
    400 with "File type not allowed", and nothing is stored. An empty file
    name is answered 400 "No file selected" before both checks. *)
Theorem size_check_before_type_check
    (file : file_storage) (o : occasion) (fs : filesystem) :
  filename file <> [] ->
  (size_of file > MAX_FILE_SIZE cfg)%Z ->
  allowed_file H cfg (filename file) = false ->
  upload H cfg (Some file) o fs
  = (Reply (JDict [(str "error", JFmt (too_large_message cfg))]) 413, fs).
Proof. intros Hname Hsize _. by apply upload_too_large. Qed.

(** C3, as the code has it. [upload] answers 413 exactly when it is given
    a file with a non-empty name whose size exceeds [MAX_FILE_SIZE], the
    empty file name being answered 400 before the size is looked at; the
    answer 413 leaves the folder as it was, and its message inserts the
    configured maximum in MiB, which reads "5.0" for the limit of 5242880
    bytes that [app.py] configures. *)
Theorem size_limit_enforced
    (files : option file_storage) (o : occasion) (fs : filesystem) :
  (status (upload H cfg files o fs).1 = Some 413%Z <->
     exists file, files = Some file /\ filename file <> []
                  /\ (size_of file > MAX_FILE_SIZE cfg)%Z)
  /\ (status (upload H cfg files o fs).1 = Some 413%Z ->
        (upload H cfg files o fs).2 = fs
        /\ body_field (str "error") (upload H cfg files o fs).1
           = Some (JFmt [Lit (str "File too large! Maximum ");
                         Flt (PyFloat.truediv (MAX_FILE_SIZE cfg) (1024 * 1024));
                         Lit (str "MB allowed")]))
  /\ MAX_FILE_SIZE app_config = 5242880%Z
  /\ render (too_large_message app_config)
     = Some (str "File too large! Maximum 5.0MB allowed").
Proof.
  split; [split|split; [|split; reflexivity]].
  - apply upload_413.
  - intros (file & -> & Hname & Hsize).
    rewrite (upload_too_large H cfg file o fs Hname Hsize). reflexivity.
  - intros Hst. apply upload_413 in Hst as (file & -> & Hname & Hsize).
    rewrite (upload_too_large H cfg file o fs Hname Hsize).
    split; reflexivity.
Qed.

End UploadOrder.

Lemma unnamed_six_mib_size : size_of unnamed_six_mib = 6291456%Z.
Proof.
  unfold size_of, unnamed_six_mib. cbn [stream]. rewrite repeat_length. lia.
Qed.

(** C3, as stated, fails: a part of 6 MiB sent without a file name exceeds
    the maximum of 5 MiB and is answered 400 "No file selected", not
    413. *)
Lemma unnamed_oversized_part_is_answered_400 :
  (size_of unnamed_six_mib > MAX_FILE_SIZE app_config)%Z
  /\ upload plain_host app_config (Some unnamed_six_mib) sample_occasion
       empty_store
     = (Reply (JDict [(str "error", JStr (str "No file selected"))]) 400,
        empty_store).
Proof.
  split; [rewrite unnamed_six_mib_size; reflexivity|].
  unfold upload. rewrite bool_decide_eq_true_2 by reflexivity. reflexivity.
Qed.

(** C8, as stated, fails: the same part is too large and its empty name
    has no allowed extension, yet the answer is neither 413 nor "File type
    not allowed": the check of the file name comes first. *)
Lemma unnamed_oversized_part_meets_neither_check :
  (size_of unnamed_six_mib > MAX_FILE_SIZE app_config)%Z
  /\ allowed_file plain_host app_config (filename unnamed_six_mib) = false
  /\ status (upload plain_host app_config (Some unnamed_six_mib)
               sample_occasion empty_store).1 = Some 400%Z
  /\ body_field (str "error")
       (upload plain_host app_config (Some unnamed_six_mib) sample_occasion
          empty_store).1
     = Some (JStr (str "No file selected")).
Proof.
  split; [rewrite unnamed_six_mib_size; reflexivity|].
  split; [reflexivity|].
  unfold upload. rewrite bool_decide_eq_true_2 by reflexivity.
  split; reflexivity.
Qed.

Lemma size_check_before_type_check_witness :
  filename six_mib_exe <> []
  /\ (size_of six_mib_exe > MAX_FILE_SIZE app_config)%Z
  /\ allowed_file plain_host app_config (filename six_mib_exe) = false
  /\ upload plain_host app_config (Some six_mib_exe) sample_occasion empty_store
     = (Reply (JDict [(str "error", JFmt (too_large_message app_config))]) 413,
        empty_store).
Proof.
  assert (Hlen : size_of six_mib_exe = 6291456%Z).
  { unfold size_of, six_mib_exe. cbn [stream]. rewrite repeat_length. lia. }
  split; [discriminate|]. split; [rewrite Hlen; reflexivity|].
  split; [reflexivity|].
  apply (size_check_before_type_check plain_host app_config six_mib_exe
           sample_occasion empty_store);
    [discriminate | rewrite Hlen; reflexivity | reflexivity].
Defined.

Lemma contains_plain (c : N) :
  Py.contains c (str "._/") = false ->
  c <> chr "." /\ c <> chr "_" /\ c <> chr "/".
Proof.
  change (Py.contains c (str "._/"))
    with ((c =? 46) || ((c =? 95) || ((c =? 47) || false))).
  rewrite !orb_false_iff, !N.eqb_neq. tauto.
Qed.

(** ** The name generator *)

Section Generator.
Variable H : host.

(** C9. For an original name without a dot the generator takes no failing
    step: the extension is empty, the whole name is the base, and the
    result is [{id}_{timestamp}_{safe base}.], ending in the dot that
    precedes the empty extension. *)
Theorem name_without_dot_ends_in_dot (u : N) (t : datetime) (original : pystr) :
  Py.contains (chr ".") original = false ->
  generate_unique_filename H u t original
  = take 8 (uuid_str u) ++ str "_" ++ strftime t (str "%Y%m%d_%H%M%S")
    ++ str "_" ++ secure_filename H original ++ str "."
  /\ Os.endswith (generate_unique_filename H u t original) (str ".") = true.
Proof.
  intros Hdot. unfold generate_unique_filename. rewrite Hdot.
  rewrite app_nil_r. split; [reflexivity|].
  unfold Os.endswith. rewrite !app_assoc, rev_app_distr.
  reflexivity.
Qed.

(** C6, as the code has it. A name that [allowed_file] accepts yields a
    storage name without ["/"] or ["\"], not empty, different from ["."]
    and [".."], and which joined onto any folder denotes an entry of that
    folder. Dots may still follow each other inside the sanitised base. *)
Theorem storage_name_is_one_component (u : N) (t : datetime) (original : pystr) :
  allowed_file H app_config original = true ->
  Py.contains (chr "/") (generate_unique_filename H u t original) = false
  /\ Py.contains (chr "\") (generate_unique_filename H u t original) = false
  /\ generate_unique_filename H u t original <> []
  /\ generate_unique_filename H u t original <> str "."
  /\ generate_unique_filename H u t original <> str ".."
  /\ forall folder,
       Os.locate folder
         (Os.path_join folder (generate_unique_filename H u t original))
       = Os.Entry (generate_unique_filename H u t original).
Proof.
  intros Ha.
  pose proof (unique_filename_chars H u t original Ha) as Hchars.
  destruct (unique_filename_head H u t original) as (c & rest & Hhd & Hc).
  apply contains_plain in Hc as (Hdot & _ & Hslash).
  split; [eapply forallb_not_contains; [|exact Hchars]; reflexivity|].
  split; [eapply forallb_not_contains; [|exact Hchars]; reflexivity|].
  rewrite Hhd.
  split; [discriminate|].
  split; [intros [= -> _]; by apply Hdot|].
  split; [intros [= -> _]; by apply Hdot|].
  intros folder. apply locate_join_entry; [discriminate|].
  by eapply head_not_slash.
Qed.

End Generator.

Lemma name_without_dot_ends_in_dot_witness :
  Py.contains (chr ".") (str "README") = false
  /\ Os.endswith
       (generate_unique_filename plain_host (uuid4 sample_occasion)
          (now sample_occasion) (str "README")) (str ".") = true.
Proof.
  split; [reflexivity|].
  apply (name_without_dot_ends_in_dot plain_host (uuid4 sample_occasion)
           (now sample_occasion) (str "README")).
  reflexivity.
Defined.

Lemma name_without_dot_example :
  generate_unique_filename plain_host (uuid4 sample_occasion)
    (now sample_occasion) (str "README")
  = str "a1b2c3d4_20241107_090503_README.".
Proof. reflexivity. Qed.

(** C6, as stated, fails: the base [a..b] of the accepted name
    [a..b.png] keeps its two dots, so the storage name contains [".."]. *)
Lemma storage_name_with_two_dots :
  allowed_file plain_host app_config (str "a..b.png") = true
  /\ generate_unique_filename plain_host (uuid4 sample_occasion)
       (now sample_occasion) (str "a..b.png")
     = str "a1b2c3d4_20241107_090503_a..b.png"
  /\ has_sub (str "..")
       (generate_unique_filename plain_host (uuid4 sample_occasion)
          (now sample_occasion) (str "a..b.png")) = true.
Proof. repeat split. Qed.

Lemma storage_name_is_one_component_witness :
  allowed_file plain_host app_config (str "photo.PNG") = true
  /\ generate_unique_filename plain_host (uuid4 sample_occasion)
       (now sample_occasion) (str "photo.PNG")
     = str "a1b2c3d4_20241107_090503_photo.png"
  /\ Py.contains (chr "/")
       (generate_unique_filename plain_host (uuid4 sample_occasion)
          (now sample_occasion) (str "photo.PNG")) = false.
Proof.
  split; [reflexivity|]. split; [reflexivity|].
  apply (storage_name_is_one_component plain_host (uuid4 sample_occasion)
           (now sample_occasion) (str "photo.PNG")).
  reflexivity.
Defined.

(** ** Download and Delete: the path resolver *)

Section Access.
Variable H : host.
Variable cfg : config.

Lemma secure_filename_relative (name : pystr) :
  Py.startswith (secure_filename H name) (str "/") = false.
Proof.
  destruct (secure_filename H name) as [|c t] eqn:E; [reflexivity|].
  eapply head_not_slash; [reflexivity|].
  pose proof (secure_filename_chars H name) as Hc. rewrite E in Hc.
  cbn [forallb] in Hc. apply andb_true_iff in Hc as [Hc _].
  intros ->. discriminate.
Qed.

(** The canonical path of the folder, as both handlers obtain it. *)
Lemma realpath_folder (fs : filesystem) :
  Os.realpath (UPLOAD_FOLDER cfg) fs (UPLOAD_FOLDER cfg) = upload_real fs.
Proof. unfold Os.realpath. by rewrite locate_folder. Qed.

(** When the containment check fails, the sanitised name is a symbolic
    link of the folder whose canonical path does not start with the
    canonical path of the folder. *)
Lemma containment_fails (name : pystr) (fs : filesystem) :
  Py.startswith
    (Os.realpath (UPLOAD_FOLDER cfg) fs
       (Os.path_join (UPLOAD_FOLDER cfg) (secure_filename H name)))
    (Os.realpath (UPLOAD_FOLDER cfg) fs (UPLOAD_FOLDER cfg)) = false ->
  exists real target,
    entries fs !! secure_filename H name = Some (Symlink real target)
    /\ Py.startswith real (upload_real fs) = false.
Proof.
  intros Hfail.
  destruct (decide (secure_filename H name = [])) as [E|Hne].
  - rewrite E in Hfail. unfold Os.realpath in Hfail.
    rewrite locate_join_empty, locate_folder, startswith_refl in Hfail.
    discriminate.
  - destruct (entries fs !! secure_filename H name) as [[o|real target]|] eqn:E.
    + rewrite realpath_plain_entry in Hfail;
        [discriminate | done | apply secure_filename_relative | congruence].
    + exists real, target. split; [reflexivity|].
      rewrite realpath_folder in Hfail. unfold Os.realpath in Hfail.
      rewrite locate_join_entry, E in Hfail;
        [done | done | apply secure_filename_relative].
    + rewrite realpath_plain_entry in Hfail;
        [discriminate | done | apply secure_filename_relative | congruence].
Qed.

Lemma download_403 (name : pystr) (fs : filesystem) :
  status (download H cfg name fs) = Some 403%Z ->
  Py.startswith
    (Os.realpath (UPLOAD_FOLDER cfg) fs
       (Os.path_join (UPLOAD_FOLDER cfg) (secure_filename H name)))
    (Os.realpath (UPLOAD_FOLDER cfg) fs (UPLOAD_FOLDER cfg)) = false.
Proof.
  unfold download. cbv zeta.
  destruct (Py.startswith _ _); [|reflexivity]. cbn [negb].
  destruct (negb (Os.exists_ _ _ _)); [discriminate|].
  destruct (Os.read _ _ _); discriminate.
Qed.

Lemma delete_403 (name : pystr) (fs : filesystem) :
  status (delete_ H cfg name fs).1 = Some 403%Z ->
  Py.startswith
    (Os.realpath (UPLOAD_FOLDER cfg) fs
       (Os.path_join (UPLOAD_FOLDER cfg) (secure_filename H name)))
    (Os.realpath (UPLOAD_FOLDER cfg) fs (UPLOAD_FOLDER cfg)) = false.
Proof.
  unfold delete_. cbv zeta.
  destruct (Py.startswith _ _); [|reflexivity]. cbn [negb].
  destruct (negb (Os.exists_ _ _ _)); [discriminate|].
  destruct (Os.remove _ _ _); discriminate.
Qed.

(** A sanitised name under which the folder holds nothing is answered
    404 by both handlers. *)
Lemma absent_name_not_found (name : pystr) (fs : filesystem) :
  secure_filename H name <> [] ->
  entries fs !! secure_filename H name = None ->
  download H cfg name fs = Reply not_found 404
  /\ delete_ H cfg name fs = (Reply not_found 404, fs).
Proof.
  intros Hne Hnone.
  assert (Hreal : Py.startswith
    (Os.realpath (UPLOAD_FOLDER cfg) fs
       (Os.path_join (UPLOAD_FOLDER cfg) (secure_filename H name)))
    (Os.realpath (UPLOAD_FOLDER cfg) fs (UPLOAD_FOLDER cfg)) = true).
  { apply realpath_plain_entry;
      [done | apply secure_filename_relative | congruence]. }
  assert (Hex : Os.exists_ (UPLOAD_FOLDER cfg) fs
    (Os.path_join (UPLOAD_FOLDER cfg) (secure_filename H name)) = false).
  { unfold Os.exists_, Os.resolve.
    rewrite locate_join_entry, Hnone;
      [|done|apply secure_filename_relative].
    apply bool_decide_eq_false_2. intros [? ?]. discriminate. }
  unfold download, delete_. cbv zeta. rewrite Hreal, Hex. split; reflexivity.
Qed.

(** C2, as the code has it. Download and Delete sanitise the client's name
    to a single path component, never ["."] or [".."], before joining it
    onto the folder, so a traversal is neutralised rather than refused: a
    non-empty sanitised name the folder does not hold is answered 404 by
    both, 403 is answered only for a symbolic link whose canonical path
    does not start with that of the folder, and ["../../etc/passwd"]
    becomes ["etc_passwd"]. *)
Theorem traversal_is_sanitised_not_refused (name : pystr) (fs : filesystem) :
  (Py.contains (chr "/") (secure_filename H name) = false
   /\ secure_filename H name <> str "."
   /\ secure_filename H name <> str "..")
  /\ (secure_filename H name <> [] ->
      entries fs !! secure_filename H name = None ->
      download H cfg name fs = Reply not_found 404
      /\ delete_ H cfg name fs = (Reply not_found 404, fs))
  /\ (status (download H cfg name fs) = Some 403%Z
      \/ status (delete_ H cfg name fs).1 = Some 403%Z ->
      exists real target,
        entries fs !! secure_filename H name = Some (Symlink real target)
        /\ Py.startswith real (upload_real fs) = false)
  /\ secure_filename H (str "../../etc/passwd") = str "etc_passwd".
Proof.
  split; [|split; [|split]].
  - split; [apply secure_filename_no_separator|apply secure_filename_not_dots].
  - apply absent_name_not_found.
  - intros [Hd|Hd]; apply containment_fails;
      [by apply download_403 | by apply delete_403].
  - reflexivity.
Qed.

(** Delete always answers: no exception leaves the handler. *)
Lemma delete_replies (name : pystr) (fs : filesystem) :
  exists body code, (delete_ H cfg name fs).1 = Reply body code.
Proof.
  unfold delete_. cbv zeta.
  destruct (negb (Py.startswith _ _)); [eexists _, _; reflexivity|].
  destruct (negb (Os.exists_ _ _ _)); [eexists _, _; reflexivity|].
  destruct (Os.remove _ _ _); eexists _, _; reflexivity.
Qed.

(** C7, as the code has it. Delete never lets an exception escape, and a
    name whose path does not exist is answered 404 when its canonical path
    passes the containment check, which is made first; when that check
    fails the answer is 403. *)
Theorem delete_of_missing_name (name : pystr) (fs : filesystem) :
  (exists body code, (delete_ H cfg name fs).1 = Reply body code)
  /\ (Os.exists_ (UPLOAD_FOLDER cfg) fs
        (Os.path_join (UPLOAD_FOLDER cfg) (secure_filename H name)) = false ->
      if Py.startswith
           (Os.realpath (UPLOAD_FOLDER cfg) fs
              (Os.path_join (UPLOAD_FOLDER cfg) (secure_filename H name)))
           (Os.realpath (UPLOAD_FOLDER cfg) fs (UPLOAD_FOLDER cfg))
      then delete_ H cfg name fs = (Reply not_found 404, fs)
      else delete_ H cfg name fs = (Reply access_denied 403, fs)).
Proof.
  split; [apply delete_replies|].
  intros Hex. unfold delete_. cbv zeta. rewrite Hex.
  destruct (Py.startswith _ _); reflexivity.
Qed.

End Access.

(** C2, as stated, fails: in an empty folder the traversal name of the
    specification is answered 404 by Download and by Delete, not 403. *)
Lemma traversal_name_is_not_found :
  download plain_host app_config (str "../../etc/passwd") empty_store
  = Reply not_found 404
  /\ delete_ plain_host app_config (str "../../etc/passwd") empty_store
     = (Reply not_found 404, empty_store).
Proof. split; reflexivity. Qed.

(** C7, as stated, fails: a link whose target outside the folder is gone
    names a path that does not exist, and Delete answers 403, not 404. *)
Lemma dangling_link_is_denied :
  Os.exists_ (UPLOAD_FOLDER app_config) dangling_store
    (Os.path_join (UPLOAD_FOLDER app_config)
       (secure_filename plain_host (str "ghost.pdf"))) = false
  /\ delete_ plain_host app_config (str "ghost.pdf") dangling_store
     = (Reply access_denied 403, dangling_store).
Proof. split; reflexivity. Qed.

(** C1 at the failing store: the canonical path of [report.pdf] lies in
    the sibling directory [/data/uploads2], outside [/data/uploads] at a
    directory boundary, yet it starts with the string [/data/uploads]: the
    check of the handlers passes, Download serves the file and Delete
    unlinks the name. *)
Theorem sibling_directory_passes_the_check :
  Os.realpath (UPLOAD_FOLDER app_config) sibling_store (str "uploads/report.pdf")
  = str "/data/uploads2/report.pdf"
  /\ contained_at_boundary (upload_real sibling_store)
       (str "/data/uploads2/report.pdf") = false
  /\ Py.startswith (str "/data/uploads2/report.pdf")
       (upload_real sibling_store) = true
  /\ download plain_host app_config (str "report.pdf") sibling_store
     = Attachment (str "uploads/report.pdf")
         [x73; x65; x63; x72; x65; x74]%byte
  /\ status (delete_ plain_host app_config (str "report.pdf") sibling_store).1
     = Some 200%Z.
Proof. repeat split. Qed.

(** ** Upload followed by Download *)

Section RoundTrip.
Variable H : host.


(** What [upload] does with an accepted file whose generated name is free
    or held by a regular file. *)
Lemma upload_stores (cfg : config) (file : file_storage) (o : occasion)
    (fs : filesystem) :
  let name := generate_unique_filename H (uuid4 o) (now o) (filename file) in
  allowed_file H cfg (filename file) = true ->
  (size_of file <= MAX_FILE_SIZE cfg)%Z ->
  (Os.name_bytes name <= Os.NAME_MAX)%nat ->
  plain_slot fs name = true ->
  exists body,
    upload H cfg (Some file) o fs
    = (Reply body 200,
       Os.with_entries fs
         (<[name := Plain (RegularFile (stream file) (written o))]> (entries fs)))
    /\ body_field (str "saved_as") (Reply body 200) = Some (JStr name).
Proof.
  intros name Ha Hsize Hlen Hslot.
  destruct (unique_filename_head H (uuid4 o) (now o) (filename file))
    as (c & rest & Hhd & Hc).
  fold name in Hhd. apply contains_plain in Hc as (_ & _ & Hslash).
  assert (Hne : name <> []) by (rewrite Hhd; discriminate).
  assert (Hrel : Py.startswith name (str "/") = false)
    by (by eapply head_not_slash).
  assert (Hname : filename file <> []).
  { apply allowed_file_true in Ha as (Hdot & _). intros E.
    rewrite E in Hdot. discriminate. }
  unfold upload. rewrite bool_decide_eq_false_2 by exact Hname.
  fold (size_of file).
  destruct (Z.gtb_spec (size_of file) (MAX_FILE_SIZE cfg)); [lia|].
  rewrite Ha. cbn [negb]. fold name.
  assert (Hsave :
    Os.save (UPLOAD_FOLDER cfg) fs (Os.path_join (UPLOAD_FOLDER cfg) name)
      (stream file) (written o)
    = Some (Os.with_entries fs
         (<[name := Plain (RegularFile (stream file) (written o))]> (entries fs)))).
  { unfold Os.save. rewrite (locate_join_entry _ _ Hne Hrel).
    rewrite (proj2 (Nat.ltb_ge _ _) Hlen).
    unfold plain_slot in Hslot.
    destruct (entries fs !! name) as [[[data mtime|]|real target]|];
      (reflexivity || discriminate). }
  rewrite Hsave.
  unfold get_file_size_mb, Os.getsize, Os.regular, Os.resolve.
  rewrite (locate_join_entry _ _ Hne Hrel).
  cbn [entries Os.with_entries]. rewrite lookup_insert_eq.
  eexists. split; reflexivity.
Qed.


End RoundTrip.



(** The round trip on the sample: the stored name and the bytes served. *)
Lemma upload_then_download_example :
  exists body fs',
    upload plain_host app_config (Some photo) sample_occasion empty_store
    = (Reply body 200, fs')
    /\ download plain_host app_config
         (str "a1b2c3d4_20241107_090503_photo.png") fs'
       = Attachment (str "uploads/a1b2c3d4_20241107_090503_photo.png")
           (stream photo).
Proof. eexists _, _. split; reflexivity. Qed.

(** ** The listing *)

Section Listing.
Variable H : host.
Variable cfg : config.

Lemma isfile_regular (fs : filesystem) (path : pystr) :
  Os.isfile (UPLOAD_FOLDER cfg) fs path = true ->
  exists data mtime,
    Os.regular (UPLOAD_FOLDER cfg) fs path = Some (data, mtime).
Proof.
  unfold Os.isfile, Os.regular.
  destruct (Os.locate _ path); try discriminate.
  destruct (Os.resolve fs name) as [[data mtime|]|]; try discriminate.
  eauto.
Qed.

(** The loop of [files]: every name that is a regular file adds one item
    and its rounded size, in listing order; the other names add nothing. *)
Lemma files_loop (fs : filesystem) (names : list pystr)
    (files_list : list json) (total : pynum) :
  exists items,
    fold_left (files_step H cfg fs) names (Some (files_list, total))
    = Some (files_list ++ items,
            fold_left py_add
              (map (fun s => PFloat (size_mb s)) (listed_sizes cfg fs names))
              total)
    /\ length items = length (listed_sizes cfg fs names).
Proof.
  revert files_list total.
  induction names as [|n names IH]; intros files_list total.
  - exists []. by rewrite app_nil_r.
  - cbn [fold_left listed_sizes omap list_omap]. unfold files_step at 2.
    destruct (Os.isfile (UPLOAD_FOLDER cfg) fs
                (Os.path_join (UPLOAD_FOLDER cfg) n)) eqn:Hfile; cbn [negb].
    + destruct (isfile_regular _ _ Hfile) as (data & mtime & Hreg).
      unfold Os.getsize, Os.getmtime. rewrite Hreg.
      destruct (IH (files_list ++ [JDict [
          (str "filename", JStr n);
          (str "size_mb",
           JNum (PFloat (PyFloat.round2
                   (PyFloat.truediv (Z.of_nat (length data)) (1024 * 1024)))));
          (str "uploaded",
           JStr (strftime (fromtimestamp H mtime) (str "%Y-%m-%d %H:%M:%S")));
          (str "download_url", JStr (str "/download/" ++ n))]])
        (py_add total (PFloat (PyFloat.round2
           (PyFloat.truediv (Z.of_nat (length data)) (1024 * 1024))))))
        as (items & -> & Hlen).
      eexists (_ :: items). rewrite <- app_assoc. split; [reflexivity|].
      cbn [length]. by rewrite Hlen.
    + apply IH.
Qed.

Lemma listed_sizes_length (fs : filesystem) (names : list pystr) :
  length (listed_sizes cfg fs names)
  = length (List.filter
              (fun n => Os.isfile (UPLOAD_FOLDER cfg) fs
                          (Os.path_join (UPLOAD_FOLDER cfg) n)) names).
Proof.
  induction names as [|n names IH]; [reflexivity|].
  cbn [listed_sizes omap list_omap List.filter].
  destruct (Os.isfile _ _ _) eqn:Hfile.
  - destruct (isfile_regular _ _ Hfile) as (data & mtime & Hreg).
    unfold Os.getsize. rewrite Hreg. cbn [length]. f_equal. apply IH.
  - apply IH.
Qed.

End Listing.

(** C10. The total [files] reports is the rounding to two decimals of the
    sum of the sizes in MiB of the listed files, each already rounded to
    two decimals, and the count it reports is the number of names that are
    regular files. That total is not the rounding of the exact number of
    bytes: two files of 5243 bytes are reported as 0.02 MiB, while the
    10486 bytes they hold round to 0.01 MiB. *)
Theorem listing_totals_round_twice :
  (forall (H : host) (cfg : config) (fs : filesystem) (names : list pystr),
     Os.listdir fs = Some names ->
     body_field (str "total_size_mb") (files H cfg fs)
     = Some (JNum (py_round2
                     (fold_left py_add
                        (map (fun s => PFloat (size_mb s))
                           (listed_sizes cfg fs names))
                        (PInt 0))))
     /\ body_field (str "total_files") (files H cfg fs)
        = Some (JNum (PInt (Z.of_nat
             (length (List.filter
                        (fun n => Os.isfile (UPLOAD_FOLDER cfg) fs
                                    (Os.path_join (UPLOAD_FOLDER cfg) n))
                        names))))))
  /\ option_map (listed_sizes app_config two_small_files)
       (Os.listdir two_small_files) = Some [5243; 5243]%Z
  /\ body_field (str "total_size_mb") (files plain_host app_config two_small_files)
     = Some (JNum (PFloat (PyFloat.truediv 2 100)))
  /\ size_mb (5243 + 5243) = PyFloat.truediv 1 100
  /\ PyFloat.truediv 2 100 <> PyFloat.truediv 1 100.
Proof.
  split; [|split; [|split; [|split]]].
  - intros H cfg fs names Hls. unfold files. rewrite Hls.
    destruct (files_loop H cfg fs names [] (PInt 0)) as (items & -> & Hlen).
    rewrite <- listed_sizes_length, <- Hlen. split; reflexivity.
  - vm_compute. reflexivity.
  - vm_compute. reflexivity.
  - vm_compute. reflexivity.
  - vm_compute. discriminate.
Qed.

(** ** Sanity checks of the embedded built-ins *)

Lemma secure_filename_examples :
  secure_filename plain_host (str "  My cool movie.mov ") = str "My_cool_movie.mov"
  /\ secure_filename plain_host (str "../../../etc/passwd") = str "etc_passwd"
  /\ secure_filename plain_host (str "/etc/passwd") = str "etc_passwd"
  /\ secure_filename plain_host (str "a..b") = str "a..b"
  /\ secure_filename plain_host (str "..") = []
  /\ secure_filename plain_host (str "__init__.py") = str "init__.py".
Proof. repeat split. Qed.

Lemma float_examples :
  PyFloat.truediv 5242880 1048576 = PyFloat.of_int 5
  /\ PyFloat.round2 (PyFloat.truediv 1 8) = PyFloat.truediv 12 100
  /\ size_mb 5242 = S754_zero false
  /\ size_mb 5243 = PyFloat.truediv 1 100
  /\ float_repr (PyFloat.of_int 5) = Some (str "5.0").
Proof. repeat split. Qed.

Lemma path_join_examples :
  Os.path_join (str "uploads") (str "a.png") = str "uploads/a.png"
  /\ Os.path_join (str "uploads") [] = str "uploads/"
  /\ Os.path_join (str "uploads/") (str "a.png") = str "uploads/a.png"
  /\ Os.path_join (str "uploads") (str "/etc/passwd") = str "/etc/passwd".
Proof. repeat split. Qed.

(** An empty sanitised name denotes the folder itself: Download lets the
    exception of [send_file] escape and Delete answers 500. *)
Lemma empty_name_examples :
  download plain_host app_config (str "..") empty_store = Raised
  /\ status (delete_ plain_host app_config (str "..") empty_store).1
     = Some 500%Z.
Proof. split; reflexivity. Qed.

(** ** The handlers' check against containment at a boundary *)

Lemma startswith_app_l (s a b : pystr) :
  Py.startswith s (a ++ b) = true -> Py.startswith s a = true.
Proof.
  revert s; induction a as [|x a IH]; intros s; [reflexivity|].
  destruct s as [|y s]; cbn [app Py.startswith]; [discriminate|].
  rewrite !andb_true_iff. intros [Hy Hs]. split; [exact Hy|]. by apply IH.
Qed.

(** A path contained at a directory boundary passes the string-prefix
    check of the handlers; [sibling_store] shows that the converse fails. *)
Lemma boundary_containment_passes_check (root path : pystr) :
  contained_at_boundary root path = true -> Py.startswith path root = true.
Proof.
  unfold contained_at_boundary. rewrite orb_true_iff.
  intros [Heq|Hpre].
  - apply bool_decide_eq_true in Heq. subst. apply startswith_refl.
  - unfold Os.path_join in Hpre. cbn [Py.startswith str] in Hpre.
    change (Py.startswith [] (str "/")) with false in Hpre.
    destruct (bool_decide (root = []) || Os.endswith root (str "/")).
    + by rewrite app_nil_r in Hpre.
    + by eapply startswith_app_l.
Qed.

(** ** More on the extension policy *)

Lemma contains_app (c : N) (a b : pystr) :
  Py.contains c (a ++ b) = Py.contains c a || Py.contains c b.
Proof. unfold Py.contains. apply existsb_app. Qed.

Lemma rsplit_at_none (c : N) (s : pystr) :
  Py.contains c s = false -> Py.rsplit_at c s = None.
Proof.
  induction s as [|x s IH]; [reflexivity|]. cbn [Py.contains existsb].
  rewrite orb_false_iff. intros [Hx Hs]. cbn [Py.rsplit_at].
  rewrite (IH Hs). by rewrite N.eqb_sym, Hx.
Qed.

(** [rsplit] cuts at the last occurrence of the separator. *)
Lemma rsplit_at_last (c : N) (h e : pystr) :
  Py.contains c e = false -> Py.rsplit_at c (h ++ c :: e) = Some (h, e).
Proof.
  intros He. induction h as [|x h IH]; cbn [app Py.rsplit_at].
  - by rewrite (rsplit_at_none c e He), N.eqb_refl.
  - by rewrite IH.
Qed.

Lemma allowed_file_split (H : host) (cfg : config) (base ext : pystr) :
  Py.contains (chr ".") ext = false ->
  allowed_file H cfg (base ++ str "." ++ ext)
  = negb (member (Py.lower H ext) (DANGEROUS_EXTENSIONS cfg))
    && member (Py.lower H ext) (ALLOWED_EXTENSIONS cfg).
Proof.
  intros He. unfold allowed_file.
  assert (Hdot : Py.contains (chr ".") (base ++ str "." ++ ext) = true).
  { rewrite !contains_app. cbn [Py.contains str existsb].
    change (chr "." =? _) with true. by rewrite orb_true_r. }
  rewrite Hdot. cbn [negb]. unfold Py.rsplit1.
  change (str "." ++ ext) with (chr "." :: ext).
  rewrite (rsplit_at_last _ base ext He). cbn [Py.item nth].
  by destruct (member _ (DANGEROUS_EXTENSIONS cfg)).
Qed.

(** X1. Only the text after the last dot decides: whatever precedes it,
    inner extensions included, a name is accepted exactly when its
    lower-cased last extension is in the allow-set and not in the
    deny-set. *)
Theorem last_extension_decides (H : host) (cfg : config) (base ext : pystr) :
  Py.contains (chr ".") ext = false ->
  allowed_file H cfg (base ++ str "." ++ ext)
  = negb (member (Py.lower H ext) (DANGEROUS_EXTENSIONS cfg))
    && member (Py.lower H ext) (ALLOWED_EXTENSIONS cfg).
Proof. apply allowed_file_split. Qed.

(** A script that carries an allowed last extension is accepted. *)
Lemma last_extension_decides_witness :
  Py.contains (chr ".") (str "png") = false
  /\ allowed_file plain_host app_config (str "install.exe" ++ str "." ++ str "png")
     = negb (member (Py.lower plain_host (str "png"))
               (DANGEROUS_EXTENSIONS app_config))
       && member (Py.lower plain_host (str "png"))
            (ALLOWED_EXTENSIONS app_config).
Proof.
  split; [reflexivity|].
  apply (last_extension_decides plain_host app_config (str "install.exe")
           (str "png")).
  reflexivity.
Defined.

Lemma ascii_lower_ascii (c : N) :
  Py.is_ascii c = true -> Py.is_ascii (Py.ascii_lower c) = true.
Proof.
  unfold Py.is_ascii, Py.ascii_lower.
  destruct ((65 <=? c) && (c <=? 90)) eqn:E; [|done].
  intros _. to_prop. lia.
Qed.

Lemma ascii_lower_idem (c : N) :
  Py.ascii_lower (Py.ascii_lower c) = Py.ascii_lower c.
Proof.
  unfold Py.ascii_lower.
  destruct ((65 <=? c) && (c <=? 90)) eqn:E; [|by rewrite E].
  destruct ((65 <=? c + 32) && (c + 32 <=? 90)) eqn:E'; [|done].
  to_prop. lia.
Qed.

Lemma lower_ascii (H : host) (s : pystr) :
  forallb Py.is_ascii s = true -> Py.lower H s = map Py.ascii_lower s.
Proof. intros Hs. unfold Py.lower. by rewrite Hs. Qed.

(** On ASCII strings [lower] is idempotent. *)
Lemma lower_idem (H : host) (s : pystr) :
  forallb Py.is_ascii s = true -> Py.lower H (Py.lower H s) = Py.lower H s.
Proof.
  intros Hs. rewrite (lower_ascii H s Hs). rewrite lower_ascii.
  - rewrite map_map. apply map_ext. intros c. apply ascii_lower_idem.
  - rewrite forallb_forall in *. intros c Hc.
    apply in_map_iff in Hc as (x & <- & Hx). apply ascii_lower_ascii. auto.
Qed.

Lemma lower_keeps_no_dot (H : host) (s : pystr) :
  forallb Py.is_ascii s = true -> Py.contains (chr ".") s = false ->
  Py.contains (chr ".") (Py.lower H s) = false.
Proof.
  intros Hs Hdot. rewrite (lower_ascii H s Hs).
  induction s as [|c s IH]; [reflexivity|].
  cbn [Py.contains existsb map] in *. apply orb_false_iff in Hdot as [Hc Hdot].
  cbn [forallb] in Hs. apply andb_true_iff in Hs as [_ Hs].
  rewrite orb_false_iff. split; [|by apply IH].
  unfold Py.ascii_lower, chr in *. cbn [N_of_ascii N_of_digits N.add N.mul] in *.
  destruct ((65 <=? c) && (c <=? 90)) eqn:E; [|exact Hc].
  to_prop. lia.
Qed.

(** X2. The policy does not look at the case of an ASCII extension, nor at
    the base: a name is accepted exactly when any name with the same
    extension in lower case is. *)
Theorem allowed_file_ignores_case (H : host) (cfg : config)
    (base base' ext : pystr) :
  forallb Py.is_ascii ext = true ->
  Py.contains (chr ".") ext = false ->
  allowed_file H cfg (base ++ str "." ++ ext)
  = allowed_file H cfg (base' ++ str "." ++ Py.lower H ext).
Proof.
  intros Hascii Hdot.
  rewrite (allowed_file_split H cfg base ext Hdot).
  rewrite (allowed_file_split H cfg base' (Py.lower H ext))
    by (by apply lower_keeps_no_dot).
  by rewrite lower_idem.
Qed.

Lemma allowed_file_ignores_case_witness :
  forallb Py.is_ascii (str "PnG") = true
  /\ Py.contains (chr ".") (str "PnG") = false
  /\ allowed_file plain_host app_config (str "Holiday" ++ str "." ++ str "PnG")
     = allowed_file plain_host app_config
         (str "x" ++ str "." ++ Py.lower plain_host (str "PnG")).
Proof.
  split; [reflexivity|]. split; [reflexivity|].
  apply (allowed_file_ignores_case plain_host app_config (str "Holiday")
           (str "x") (str "PnG")); reflexivity.
Defined.

(** ** More on the name generator *)

(** The allowed extensions of [app.py] are lower-case words without a
    dot. *)
Lemma allowed_extension_word (H : host) (ext : pystr) :
  member ext (ALLOWED_EXTENSIONS app_config) = true ->
  Py.contains (chr ".") ext = false /\ Py.lower H ext = ext.
Proof.
  unfold member. rewrite bool_decide_eq_true. cbn [ALLOWED_EXTENSIONS app_config].
  rewrite !elem_of_cons, elem_of_nil.
  intros [->|[->|[->|[->|[->|[]]]]]]; split; reflexivity.
Qed.

Lemma unique_filename_split (H : host) (u : N) (t : datetime) (original : pystr) :
  Py.contains (chr ".") original = true ->
  generate_unique_filename H u t original
  = (take 8 (uuid_str u) ++ str "_" ++ strftime t (str "%Y%m%d_%H%M%S")
     ++ str "_"
     ++ secure_filename H (Py.item (Py.rsplit1 (chr ".") original) 0))
    ++ str "." ++ extension H original.
Proof.
  intros Hdot. rewrite (unique_filename_shape H u t original Hdot).
  by rewrite <- !app_assoc.
Qed.

(** X3. The storage name of an accepted file is itself accepted by the
    policy, and it carries the lower-cased extension of the original as
    its own last extension. *)
Theorem storage_name_keeps_extension (H : host) (u : N) (t : datetime)
    (original : pystr) :
  allowed_file H app_config original = true ->
  allowed_file H app_config (generate_unique_filename H u t original) = true
  /\ extension H (generate_unique_filename H u t original)
     = extension H original
  /\ Os.endswith (generate_unique_filename H u t original)
       (str "." ++ extension H original) = true.
Proof.
  intros Ha. apply allowed_file_true in Ha as (Hdot & Hdeny & Hallow).
  destruct (allowed_extension_word H _ Hallow) as [Hnodot Hlower].
  rewrite (unique_filename_split H u t original Hdot).
  split; [|split].
  - rewrite allowed_file_split by exact Hnodot.
    by rewrite Hlower, Hdeny, Hallow.
  - unfold extension at 1. unfold Py.rsplit1.
    change (str "." ++ extension H original)
      with (chr "." :: extension H original).
    rewrite rsplit_at_last by exact Hnodot. cbn [Py.item nth]. exact Hlower.
  - unfold Os.endswith. rewrite rev_app_distr. apply startswith_app.
Qed.

Lemma storage_name_keeps_extension_witness :
  allowed_file plain_host app_config (str "photo.PNG") = true
  /\ extension plain_host
       (generate_unique_filename plain_host (uuid4 sample_occasion)
          (now sample_occasion) (str "photo.PNG"))
     = extension plain_host (str "photo.PNG").
Proof.
  split; [reflexivity|].
  apply (storage_name_keeps_extension plain_host (uuid4 sample_occasion)
           (now sample_occasion) (str "photo.PNG")).
  reflexivity.
Defined.

(** *** Collisions of storage names *)

Lemma hex_digit_inj (a b : N) :
  hex_digit a = hex_digit b -> a mod 16 = b mod 16.
Proof.
  unfold hex_digit. cbv zeta.
  assert (a mod 16 < 16) as Ha by (apply N.mod_upper_bound; lia).
  assert (b mod 16 < 16) as Hb by (apply N.mod_upper_bound; lia).
  revert Ha Hb. generalize (a mod 16) (b mod 16). intros x y Hx Hy.
  destruct (x <? 10) eqn:Ex; destruct (y <? 10) eqn:Ey; to_prop; lia.
Qed.

Lemma hex_digit_mod (a : N) : hex_digit (a mod 16) = hex_digit a.
Proof. unfold hex_digit. by rewrite N.Div0.mod_mod. Qed.

(** A hexadecimal digit of the first group, read off the top 32 bits. *)
Lemma nibble_of_top32 (u k : N) :
  96 <= k <= 124 ->
  N.shiftr u k mod 16 = N.shiftr (uuid_top32 u) (k - 96) mod 16.
Proof.
  intros Hk. apply N.bits_inj. intros j. unfold uuid_top32.
  change 16 with (2 ^ 4).
  destruct (N.lt_ge_cases j 4) as [Hj|Hj].
  - rewrite !N.mod_pow2_bits_low by exact Hj.
    rewrite !N.shiftr_spec by lia.
    rewrite N.mod_pow2_bits_low by lia.
    rewrite N.shiftr_spec by lia. f_equal. lia.
  - by rewrite !N.mod_pow2_bits_high by exact Hj.
Qed.

Lemma top32_of_nibbles (u v : N) :
  (forall q, q < 8 ->
     N.shiftr u (96 + 4 * q) mod 16 = N.shiftr v (96 + 4 * q) mod 16) ->
  uuid_top32 u = uuid_top32 v.
Proof.
  intros Hq. apply N.bits_inj. intros j. unfold uuid_top32.
  destruct (N.lt_ge_cases j 32) as [Hj|Hj].
  - rewrite !N.mod_pow2_bits_low by exact Hj.
    rewrite !N.shiftr_spec by lia.
    assert (Hdiv : j = 4 * (j / 4) + j mod 4) by (apply N.div_mod; lia).
    assert (Hr : j mod 4 < 4) by (apply N.mod_upper_bound; lia).
    assert (Hq8 : j / 4 < 8) by (apply N.Div0.div_lt_upper_bound; lia).
    revert Hdiv Hr Hq8. generalize (j / 4) (j mod 4). intros q r -> Hr Hq8.
    pose proof (f_equal (fun x => N.testbit x r) (Hq q Hq8)) as Hbit.
    cbv beta in Hbit. change 16 with (2 ^ 4) in Hbit.
    rewrite !N.mod_pow2_bits_low in Hbit by exact Hr.
    rewrite !N.shiftr_spec in Hbit by lia.
    replace (4 * q + r + 96) with (r + (96 + 4 * q)) by lia. exact Hbit.
  - by rewrite !N.mod_pow2_bits_high by exact Hj.
Qed.

(** The first eight digits of [str(u)] show exactly the top 32 bits. *)
Lemma unique_id_top32 (u v : N) :
  take 8 (uuid_str u) = take 8 (uuid_str v) <-> uuid_top32 u = uuid_top32 v.
Proof.
  rewrite !unique_id_digits. split.
  - intros E. apply top32_of_nibbles. intros q Hq.
    assert (Hin : In (N.to_nat (7 - q)) (seq 0 8)) by (apply in_seq; lia).
    pose proof (proj1 map_ext_in_iff E _ Hin) as Hd. cbv beta in Hd.
    apply hex_digit_inj in Hd.
    replace (4 * (31 - N.of_nat (N.to_nat (7 - q)))) with (96 + 4 * q)
      in Hd by lia.
    exact Hd.
  - intros E. apply map_ext_in. intros i Hi. apply in_seq in Hi.
    rewrite <- (hex_digit_mod (N.shiftr u _)), <- (hex_digit_mod (N.shiftr v _)).
    rewrite (nibble_of_top32 u), (nibble_of_top32 v) by lia. by rewrite E.
Qed.

Lemma unique_id_length (u : N) : length (take 8 (uuid_str u)) = 8%nat.
Proof. rewrite unique_id_digits. by rewrite length_map, length_seq. Qed.

(** X4. Storage names collide only through the identifier: two names can
    be equal only if the two UUIDs agree in their top 32 bits, and when
    they do, the same original name in the same second gets the same
    storage name. *)
Theorem storage_names_collide_on_top32 (H : host) (u v : N) :
  (forall t t' original original',
     generate_unique_filename H u t original
     = generate_unique_filename H v t' original' ->
     uuid_top32 u = uuid_top32 v)
  /\ (uuid_top32 u = uuid_top32 v ->
      forall t original,
        generate_unique_filename H u t original
        = generate_unique_filename H v t original).
Proof.
  split.
  - intros t t' original original' E. apply unique_id_top32.
    unfold generate_unique_filename in E.
    apply app_inj_1 in E as [E _]; [exact E|].
    by rewrite !unique_id_length.
  - intros E t original. apply unique_id_top32 in E.
    unfold generate_unique_filename. by rewrite E.
Qed.

(** ** More on Download and Delete *)

Lemma strip_last (cs s pre : pystr) (d : N) :
  Py.strip cs s = pre ++ [d] -> Py.contains d cs = false.
Proof.
  unfold Py.strip, Py.rstrip. intros E.
  apply (f_equal (@rev N)) in E. rewrite rev_involutive, rev_app_distr in E.
  cbn [rev app] in E. eapply lstrip_head. exact E.
Qed.

(** Sanitising twice is sanitising once. *)
Lemma secure_filename_idem (H : host) (s : pystr) :
  secure_filename H (secure_filename H s) = secure_filename H s.
Proof.
  destruct (secure_filename H s) as [|c t] eqn:E; [reflexivity|].
  destruct (exists_last (l := c :: t)) as (pre & d & Hl); [discriminate|].
  rewrite <- E. eapply secure_filename_fixed.
  - apply secure_filename_chars.
  - exact E.
  - eapply strip_head. exact E.
  - rewrite E. exact Hl.
  - eapply strip_last. unfold secure_filename in E. rewrite E. exact Hl.
Qed.

Section AccessMore.
Variable H : host.
Variable cfg : config.

(** X5. Download and Delete answer a name and its sanitised form alike:
    asking again under the name a handler echoes changes nothing. *)
Theorem handlers_ignore_resanitising (name : pystr) (fs : filesystem) :
  download H cfg (secure_filename H name) fs = download H cfg name fs
  /\ delete_ H cfg (secure_filename H name) fs = delete_ H cfg name fs.
Proof.
  unfold download, delete_. cbv zeta. rewrite secure_filename_idem.
  split; reflexivity.
Qed.

Lemma empty_name_answers (name : pystr) (fs : filesystem) :
  secure_filename H name = [] ->
  download H cfg name fs = Raised
  /\ delete_ H cfg name fs
     = (Reply (JDict [(str "error", JStr (str "Failed to delete file"))]) 500, fs).
Proof.
  intros E. unfold download, delete_. cbv zeta. rewrite E.
  unfold Os.realpath, Os.exists_, Os.read, Os.regular, Os.remove.
  rewrite locate_join_empty, locate_folder, startswith_refl.
  split; reflexivity.
Qed.

(** X6. A name that sanitising empties denotes the folder itself: Download
    lets the exception of [send_file] escape, and Delete answers 500
    "Failed to delete file" and removes nothing. *)
Theorem emptied_name_reaches_the_folder (name : pystr) (fs : filesystem) :
  secure_filename H name = [] ->
  download H cfg name fs = Raised
  /\ delete_ H cfg name fs
     = (Reply (JDict [(str "error", JStr (str "Failed to delete file"))]) 500, fs).
Proof. apply empty_name_answers. Qed.

Lemma escaping_link_denied (name : pystr) (fs : filesystem)
    (real : pystr) (target : option obj) :
  secure_filename H name <> [] ->
  entries fs !! secure_filename H name = Some (Symlink real target) ->
  Py.startswith real (upload_real fs) = false ->
  download H cfg name fs = Reply access_denied 403
  /\ delete_ H cfg name fs = (Reply access_denied 403, fs).
Proof.
  intros Hne Hlink Hesc. unfold download, delete_. cbv zeta.
  rewrite realpath_folder. unfold Os.realpath.
  rewrite locate_join_entry, Hlink, Hesc;
    [|exact Hne|apply secure_filename_relative].
  split; reflexivity.
Qed.

(** X7. Access is denied exactly for escaping links: Download, and Delete
    alike, answers 403 if and only if the sanitised name is not empty and
    is a symbolic link of the folder whose canonical path does not start
    with the canonical path of the folder. *)
Theorem denied_exactly_for_escaping_links (name : pystr) (fs : filesystem) :
  let escaping :=
    secure_filename H name <> []
    /\ exists real target,
         entries fs !! secure_filename H name = Some (Symlink real target)
         /\ Py.startswith real (upload_real fs) = false in
  (status (download H cfg name fs) = Some 403%Z <-> escaping)
  /\ (status (delete_ H cfg name fs).1 = Some 403%Z <-> escaping).
Proof.
  intros escaping.
  assert (Hfail : Py.startswith
    (Os.realpath (UPLOAD_FOLDER cfg) fs
       (Os.path_join (UPLOAD_FOLDER cfg) (secure_filename H name)))
    (Os.realpath (UPLOAD_FOLDER cfg) fs (UPLOAD_FOLDER cfg)) = false ->
    escaping).
  { intros Hf. split; [|exact (containment_fails H cfg name fs Hf)].
    intros E. rewrite E in Hf. unfold Os.realpath in Hf.
    rewrite locate_join_empty, locate_folder, startswith_refl in Hf.
    discriminate. }
  split; (split; [|intros (Hne & real & target & Hlink & Hesc)]).
  - intros Hst. by apply Hfail, download_403.
  - by rewrite (proj1 (escaping_link_denied name fs real target Hne Hlink Hesc)).
  - intros Hst. by apply Hfail, delete_403.
  - by rewrite (proj2 (escaping_link_denied name fs real target Hne Hlink Hesc)).
Qed.

(** What a successful Delete did. *)
Lemma delete_200 (name : pystr) (fs : filesystem) :
  status (delete_ H cfg name fs).1 = Some 200%Z ->
  secure_filename H name <> []
  /\ (delete_ H cfg name fs).2
     = Os.with_entries fs (delete (secure_filename H name) (entries fs)).
Proof.
  unfold delete_. cbv zeta.
  destruct (negb (Py.startswith _ _)); [discriminate|].
  destruct (negb (Os.exists_ _ _ _)); [discriminate|].
  unfold Os.remove. rewrite locate_secure.
  case_bool_decide as Hn; [discriminate|].
  destruct (entries fs !! secure_filename H name) as [[[data mtime|]|real target]|];
    try discriminate; intros _; split; try exact Hn; reflexivity.
Qed.

Lemma delete_not_200 (name : pystr) (fs : filesystem) :
  status (delete_ H cfg name fs).1 <> Some 200%Z ->
  (delete_ H cfg name fs).2 = fs.
Proof.
  unfold delete_. cbv zeta.
  destruct (negb (Py.startswith _ _)); [reflexivity|].
  destruct (negb (Os.exists_ _ _ _)); [reflexivity|].
  destruct (Os.remove _ _ _); [|reflexivity].
  intros Hst. by destruct Hst.
Qed.

(** X8. What Delete removed is gone: after an answer 200, Download of the
    same name and a second Delete are both answered 404. *)
Theorem deleted_name_is_not_found (name : pystr) (fs : filesystem) :
  status (delete_ H cfg name fs).1 = Some 200%Z ->
  download H cfg name (delete_ H cfg name fs).2 = Reply not_found 404
  /\ delete_ H cfg name (delete_ H cfg name fs).2
     = (Reply not_found 404, (delete_ H cfg name fs).2).
Proof.
  intros Hst. apply delete_200 in Hst as [Hne ->].
  apply absent_name_not_found; [exact Hne|].
  cbn [entries Os.with_entries]. apply lookup_delete_eq.
Qed.

(** The answer of Download depends on the folder through its canonical
    path and the entry under the sanitised name only. *)
Lemma download_local (name : pystr) (fs fs' : filesystem) :
  upload_real fs' = upload_real fs ->
  entries fs' !! secure_filename H name = entries fs !! secure_filename H name ->
  download H cfg name fs' = download H cfg name fs.
Proof.
  intros Hreal Hentry. unfold download. cbv zeta.
  unfold Os.realpath, Os.exists_, Os.read, Os.regular, Os.resolve.
  rewrite locate_folder, locate_secure, Hreal.
  case_bool_decide; [reflexivity|]. by rewrite Hentry.
Qed.

(** X9. Delete touches one name at most: an answer other than 200 leaves
    the folder as it was, and after any Delete the Download of a name that
    sanitises differently and is not a symbolic link of the folder is
    answered as before. *)
Theorem delete_touches_one_name (name other : pystr) (fs : filesystem) :
  (status (delete_ H cfg name fs).1 <> Some 200%Z ->
   (delete_ H cfg name fs).2 = fs)
  /\ (secure_filename H other <> secure_filename H name ->
      (forall real target,
         entries fs !! secure_filename H other
         <> Some (Symlink real target)) ->
      download H cfg other (delete_ H cfg name fs).2
      = download H cfg other fs).
Proof.
  split; [apply delete_not_200|]. intros Hother _.
  destruct (decide (status (delete_ H cfg name fs).1 = Some 200%Z)) as [Hst|Hst].
  - apply delete_200 in Hst as [_ ->].
    apply download_local; [reflexivity|].
    cbn [entries Os.with_entries]. by apply lookup_delete_ne.
  - by rewrite (delete_not_200 name fs Hst).
Qed.

End AccessMore.

Lemma emptied_name_reaches_the_folder_witness :
  secure_filename plain_host (str "../..") = []
  /\ download plain_host app_config (str "../..") mixed_store = Raised.
Proof.
  split; [reflexivity|].
  apply (emptied_name_reaches_the_folder plain_host app_config (str "../..")
           mixed_store).
  reflexivity.
Defined.

Lemma deleted_name_is_not_found_witness :
  status (delete_ plain_host app_config (str "a.pdf") mixed_store).1 = Some 200%Z
  /\ download plain_host app_config (str "a.pdf")
       (delete_ plain_host app_config (str "a.pdf") mixed_store).2
     = Reply not_found 404.
Proof.
  split; [reflexivity|].
  apply (deleted_name_is_not_found plain_host app_config (str "a.pdf")
           mixed_store).
  reflexivity.
Defined.

(** ** More on Upload *)

Section UploadMore.
Variable H : host.
Variable cfg : config.




(** X11. What a successful upload reports, with the extension sets of
    [app.py]. When [upload] answers 200, the storage name not being a
    dangling link of the folder, the answer
    carries the client's file name as it was sent, the size of the stored
    stream in MiB rounded to two decimals, and the URL of Download for the
    storage name. *)
Theorem upload_reports_what_it_stored (file : file_storage) (o : occasion)
    (fs : filesystem) :
  let name := generate_unique_filename H (uuid4 o) (now o) (filename file) in
  status (upload H app_config (Some file) o fs).1 = Some 200%Z ->
  (forall real, entries fs !! name <> Some (Symlink real None)) ->
  body_field (str "original_name") (upload H app_config (Some file) o fs).1
  = Some (JStr (filename file))
  /\ body_field (str "size_mb") (upload H app_config (Some file) o fs).1
     = Some (JNum (PFloat (size_mb (size_of file))))
  /\ body_field (str "download_url") (upload H app_config (Some file) o fs).1
     = Some (JStr (str "/download/" ++ name)).
Proof.
  intros name Hst Hlive.
  destruct (unique_filename_head H (uuid4 o) (now o) (filename file))
    as (c & rest & Hhd & Hc).
  fold name in Hhd. apply contains_plain in Hc as (_ & _ & Hslash).
  assert (Hne : name <> []) by (rewrite Hhd; discriminate).
  assert (Hrel : Py.startswith name (str "/") = false)
    by (by eapply head_not_slash).
  revert Hst. unfold upload.
  case_bool_decide as Hname; [discriminate|]. fold (size_of file).
  destruct (Z.gtb_spec (size_of file) (MAX_FILE_SIZE app_config)); [discriminate|].
  destruct (allowed_file H app_config (filename file)); cbn [negb]; [|discriminate].
  fold name. unfold Os.save. rewrite (locate_join_entry _ _ Hne Hrel).
  destruct (Os.NAME_MAX <? Os.name_bytes name)%nat; [discriminate|].
  destruct (entries fs !! name) as [[[data mtime|]|real [[data mtime|]|]]|]
    eqn:E; try discriminate;
    try (by destruct (Hlive real));
    unfold get_file_size_mb, Os.getsize, Os.regular, Os.resolve;
    rewrite (locate_join_entry _ _ Hne Hrel);
    cbn [entries Os.with_entries]; rewrite lookup_insert_eq;
    intros _; repeat split.
Qed.

End UploadMore.

Lemma upload_reports_what_it_stored_witness :
  status (upload plain_host app_config (Some photo) sample_occasion
            empty_store).1 = Some 200%Z
  /\ (forall real,
        entries empty_store
          !! generate_unique_filename plain_host (uuid4 sample_occasion)
               (now sample_occasion) (filename photo)
        <> Some (Symlink real None))
  /\ body_field (str "original_name")
       (upload plain_host app_config (Some photo) sample_occasion empty_store).1
     = Some (JStr (filename photo)).
Proof.
  split; [reflexivity|]. split; [intros real; discriminate|].
  apply (upload_reports_what_it_stored plain_host photo
           sample_occasion empty_store);
    [reflexivity | intros real; discriminate].
Defined.

(** ** More on the listing *)

Section ListingMore.
Variable H : host.
Variable cfg : config.

Lemma listing_item_isfile (fs : filesystem) (n : pystr) :
  is_Some (listing_item H cfg fs n)
  <-> Os.isfile (UPLOAD_FOLDER cfg) fs (Os.path_join (UPLOAD_FOLDER cfg) n) = true.
Proof.
  unfold listing_item, Os.isfile, Os.regular.
  destruct (Os.locate _ _) as [|name|];
    try (split; [intros [? ?]; discriminate|discriminate]).
  destruct (Os.resolve fs name) as [[data mtime|]|];
    split; try discriminate; try (intros [? ?]; discriminate);
    try reflexivity; intros _; eexists; reflexivity.
Qed.

(** The loop of [files], with the items it builds. *)
Lemma files_loop_items (fs : filesystem) (names : list pystr)
    (files_list : list json) (total : pynum) :
  fold_left (files_step H cfg fs) names (Some (files_list, total))
  = Some (files_list ++ omap (listing_item H cfg fs) names,
          fold_left py_add
            (map (fun s => PFloat (size_mb s)) (listed_sizes cfg fs names))
            total).
Proof.
  revert files_list total.
  induction names as [|n names IH]; intros files_list total.
  - cbn [fold_left omap list_omap listed_sizes map]. by rewrite app_nil_r.
  - cbn [fold_left listed_sizes omap list_omap]. unfold files_step at 2.
    unfold listing_item at 1.
    destruct (Os.isfile (UPLOAD_FOLDER cfg) fs
                (Os.path_join (UPLOAD_FOLDER cfg) n)) eqn:Hfile; cbn [negb].
    + destruct (isfile_regular cfg _ _ Hfile) as (data & mtime & Hreg).
      unfold Os.getsize, Os.getmtime. rewrite Hreg.
      rewrite IH. cbn [map fold_left]. rewrite <- app_assoc. reflexivity.
    + assert (Hreg : Os.regular (UPLOAD_FOLDER cfg) fs
                       (Os.path_join (UPLOAD_FOLDER cfg) n) = None).
      { unfold Os.isfile, Os.regular in *.
        destruct (Os.locate _ _); try reflexivity.
        by destruct (Os.resolve fs name) as [[? ?|]|]. }
      rewrite Hreg. apply IH.
Qed.

Lemma listing_items_length (fs : filesystem) (names : list pystr) :
  length (omap (listing_item H cfg fs) names)
  = length (List.filter
              (fun n => Os.isfile (UPLOAD_FOLDER cfg) fs
                          (Os.path_join (UPLOAD_FOLDER cfg) n)) names).
Proof.
  induction names as [|n names IH]; [reflexivity|].
  cbn [omap list_omap List.filter].
  pose proof (listing_item_isfile fs n) as Hiff.
  destruct (listing_item H cfg fs n) eqn:E;
    destruct (Os.isfile _ _ _) eqn:Hf; cbn [length]; try (by rewrite IH).
  - assert (Hs : is_Some (Some j)) by (eexists; reflexivity).
    apply Hiff in Hs. discriminate.
  - destruct (proj2 Hiff eq_refl). discriminate.
Qed.

(** X13. The listing holds exactly the names that are regular files, links
    to regular files included, in the order of the directory: directories
    and dangling links are skipped without an error, every item carries
    its name, and its URL is that of Download for the name. *)
Theorem files_lists_the_regular_files (fs : filesystem) (names : list pystr) :
  Os.listdir fs = Some names ->
  body_field (str "files") (files H cfg fs)
  = Some (JList (omap (listing_item H cfg fs) names))
  /\ (forall n, is_Some (listing_item H cfg fs n)
                <-> Os.isfile (UPLOAD_FOLDER cfg) fs
                      (Os.path_join (UPLOAD_FOLDER cfg) n) = true)
  /\ (forall n item, listing_item H cfg fs n = Some item ->
        json_field (str "filename") item = Some (JStr n)
        /\ json_field (str "download_url") item
           = Some (JStr (str "/download/" ++ n))).
Proof.
  intros Hls. split; [|split].
  - unfold files. rewrite Hls, files_loop_items. reflexivity.
  - apply listing_item_isfile.
  - intros n item. unfold listing_item.
    destruct (Os.regular _ _ _) as [[data mtime]|]; [|discriminate].
    intros [= <-]. split; reflexivity.
Qed.

Lemma nothing_listed (fs : filesystem) (names : list pystr) :
  Forall (fun n => Os.isfile (UPLOAD_FOLDER cfg) fs
                     (Os.path_join (UPLOAD_FOLDER cfg) n) = false) names ->
  omap (listing_item H cfg fs) names = []
  /\ listed_sizes cfg fs names = [].
Proof.
  induction 1 as [|n names Hn _ [IH1 IH2]]; [split; reflexivity|].
  cbn [omap list_omap listed_sizes]. rewrite Hn.
  destruct (listing_item H cfg fs n) eqn:E.
  - assert (Hs : is_Some (listing_item H cfg fs n)) by (eexists; exact E).
    apply listing_item_isfile in Hs. congruence.
  - split; [exact IH1|exact IH2].
Qed.

(** X14. A folder without regular files, empty or holding directories and
    dangling links only, is listed with no item, the count 0 and, as
    total, the integer 0 the sum starts from, not a float. *)
Theorem files_of_nothing (fs : filesystem) (names : list pystr) :
  Os.listdir fs = Some names ->
  Forall (fun n => Os.isfile (UPLOAD_FOLDER cfg) fs
                     (Os.path_join (UPLOAD_FOLDER cfg) n) = false) names ->
  files H cfg fs
  = Reply (JDict [
      (str "total_files", JNum (PInt 0));
      (str "total_size_mb", JNum (PInt 0));
      (str "files", JList [])]) 200.
Proof.
  intros Hls Hnone. destruct (nothing_listed fs names Hnone) as [Hitems Hsizes].
  unfold files. rewrite Hls, files_loop_items, Hitems, Hsizes. reflexivity.
Qed.

End ListingMore.

Lemma files_lists_the_regular_files_witness :
  Os.listdir mixed_store = Some [str "a.pdf"; str "old"]
  /\ body_field (str "files") (files plain_host app_config mixed_store)
     = Some (JList (omap (listing_item plain_host app_config mixed_store)
                      [str "a.pdf"; str "old"])).
Proof.
  split; [reflexivity|].
  apply (files_lists_the_regular_files plain_host app_config mixed_store
           [str "a.pdf"; str "old"]).
  reflexivity.
Defined.

Lemma files_of_nothing_witness :
  Os.listdir no_regular_store = Some [str "ghost.pdf"; str "old"]
  /\ Forall (fun n => Os.isfile (UPLOAD_FOLDER app_config) no_regular_store
                        (Os.path_join (UPLOAD_FOLDER app_config) n) = false)
       [str "ghost.pdf"; str "old"]
  /\ files plain_host app_config no_regular_store
     = Reply (JDict [
         (str "total_files", JNum (PInt 0));
         (str "total_size_mb", JNum (PInt 0));
         (str "files", JList [])]) 200.
Proof.
  split; [reflexivity|]. split; [repeat constructor|].
  apply (files_of_nothing plain_host app_config no_regular_store
           [str "ghost.pdf"; str "old"]); [reflexivity|repeat constructor].
Defined.

(** ** The information page *)

(** X15. [info] counts the files as [files] does, but unguarded: when the
    folder can be listed both report the same number of files, and when it
    cannot, [files] answers 500 while [info] lets the exception escape. *)
Theorem info_counts_like_files (H : host) (cfg : config) (fs : filesystem) :
  (listable fs = true ->
   status (info cfg fs) = Some 200%Z
   /\ (body_field (str "statistics") (info cfg fs)
         ≫= json_field (str "total_files"))
      = body_field (str "total_files") (files H cfg fs))
  /\ (listable fs = false ->
      info cfg fs = Raised /\ status (files H cfg fs) = Some 500%Z).
Proof.
  unfold info, files, Os.listdir. split; intros ->.
  - rewrite files_loop_items. split; [reflexivity|].
    cbn [app]. rewrite (listing_items_length H). reflexivity.
  - split; reflexivity.
Qed.

(** ** Sizes in MiB *)

Lemma small_sizes_checked :
  forallb (fun n => is_positive_zero (size_mb (Z.of_nat n)))
    (seq 0 (N.to_nat 5243)) = true.
Proof. vm_compute. reflexivity. Qed.

Lemma getsize_length (cfg : config) (fs : filesystem) (path : pystr) (size : Z) :
  Os.getsize (UPLOAD_FOLDER cfg) fs path = Some size ->
  exists n : nat, size = Z.of_nat n.
Proof.
  unfold Os.getsize. destruct (Os.regular _ _ _) as [[data mtime]|];
    [|discriminate].
  intros [= <-]. eauto.
Qed.

(** X16. Rounding to two decimals hides small files: a file of fewer than
    5243 bytes is reported as 0.0 MiB by [get_file_size_mb], and 5243
    bytes is the first size reported as 0.01. *)
Theorem small_files_weigh_nothing (cfg : config) (fs : filesystem)
    (path : pystr) (size : Z) :
  Os.getsize (UPLOAD_FOLDER cfg) fs path = Some size ->
  ((size < 5243)%Z ->
   get_file_size_mb cfg fs path = Some (S754_zero false))
  /\ (size = 5243%Z ->
      get_file_size_mb cfg fs path = Some (PyFloat.truediv 1 100)).
Proof.
  intros Hsize. unfold get_file_size_mb. rewrite Hsize.
  destruct (getsize_length _ _ _ _ Hsize) as [n ->].
  split.
  - intros Hsmall. pose proof small_sizes_checked as Hall.
    rewrite forallb_forall in Hall.
    assert (Hin : In n (seq 0 (N.to_nat 5243))) by (apply in_seq; lia).
    specialize (Hall n Hin). unfold size_mb in Hall.
    destruct (PyFloat.round2 _) as [[|]| | |]; try discriminate. reflexivity.
  - intros E. rewrite E. reflexivity.
Qed.

Lemma small_files_weigh_nothing_witness :
  Os.getsize (UPLOAD_FOLDER app_config) mixed_store (str "uploads/a.pdf")
  = Some 4%Z
  /\ get_file_size_mb app_config mixed_store (str "uploads/a.pdf")
     = Some (S754_zero false).
Proof.
  split; [reflexivity|].
  apply (small_files_weigh_nothing app_config mixed_store
           (str "uploads/a.pdf") 4); [reflexivity|reflexivity].
Defined.

(** ** Upload composed with the listing and with Delete *)

Lemma filter_length_perm {A} (f : A -> bool) (l l' : list A) :
  l ≡ₚ l' -> length (List.filter f l) = length (List.filter f l').
Proof.
  induction 1 as [|x l l' _ IH|x y l|l1 l2 l3 _ IH1 _ IH2].
  - reflexivity.
  - cbn [List.filter]. destruct (f x); cbn [length]; by rewrite IH.
  - cbn [List.filter]. by destruct (f x), (f y).
  - by rewrite IH1.
Qed.

Section UploadComposed.
Variable H : host.
Variable cfg : config.

(** The number of files [files] reports. *)
Lemma files_count (fs : filesystem) (names : list pystr) :
  Os.listdir fs = Some names ->
  body_field (str "total_files") (files H cfg fs)
  = Some (JNum (PInt (Z.of_nat
       (length (List.filter
                  (fun n => Os.isfile (UPLOAD_FOLDER cfg) fs
                              (Os.path_join (UPLOAD_FOLDER cfg) n)) names))))).
Proof.
  intros Hls. unfold files. rewrite Hls, files_loop_items.
  cbn [app]. rewrite (listing_items_length H). reflexivity.
Qed.

Lemma plain_name_relative (n : pystr) :
  Py.contains (chr "/") n = false -> Py.startswith n (str "/") = false.
Proof.
  destruct n as [|c t]; [reflexivity|]. cbn [Py.contains existsb].
  rewrite orb_false_iff. intros [Hc _].
  eapply head_not_slash; [reflexivity|]. intros ->.
  rewrite N.eqb_refl in Hc. discriminate.
Qed.

(** Writing one name leaves the other names of the folder what they
    were. *)
Lemma isfile_other (fs : filesystem) (name n : pystr) (nd : node) :
  n <> [] -> Py.contains (chr "/") n = false -> n <> name ->
  Os.isfile (UPLOAD_FOLDER cfg)
    (Os.with_entries fs (<[name := nd]> (entries fs)))
    (Os.path_join (UPLOAD_FOLDER cfg) n)
  = Os.isfile (UPLOAD_FOLDER cfg) fs (Os.path_join (UPLOAD_FOLDER cfg) n).
Proof.
  intros Hne Hplain Hother. unfold Os.isfile, Os.resolve.
  rewrite locate_join_entry by (done || by apply plain_name_relative).
  cbn [entries Os.with_entries]. by rewrite lookup_insert_ne.
Qed.

End UploadComposed.

Section UploadComposedApp.
Variable H : host.

(** X17. An upload under a fresh name adds exactly one file to the
    listing. With the extension sets of [app.py], for an accepted file
    within the size limit whose storage name is at most [NAME_MAX] bytes
    long and free, in a folder that can be listed, whose names are plain directory names and where no link leads
    to the new name, the count [files] reports after the upload is the
    count before plus one. *)
Theorem upload_adds_one_file (file : file_storage) (o : occasion)
    (fs : filesystem) (count : Z) :
  let name := generate_unique_filename H (uuid4 o) (now o) (filename file) in
  allowed_file H app_config (filename file) = true ->
  (size_of file <= MAX_FILE_SIZE app_config)%Z ->
  (Os.name_bytes name <= Os.NAME_MAX)%nat ->
  entries fs !! name = None ->
  entry_names_plain fs ->
  (forall n target,
     entries fs !! n
     <> Some (Symlink (Os.path_join (upload_real fs) name) target)) ->
  body_field (str "total_files") (files H app_config fs) = Some (JNum (PInt count)) ->
  body_field (str "total_files")
    (files H app_config (upload H app_config (Some file) o fs).2)
  = Some (JNum (PInt (count + 1))).
Proof.
  intros name Ha Hsize Hlen Hfresh Hplain _ Hcount.
  assert (Hslot : plain_slot fs name = true)
    by (unfold plain_slot; by rewrite Hfresh).
  destruct (upload_stores H app_config file o fs Ha Hsize Hlen Hslot)
    as (body & Hup & _).
  fold name in Hup. rewrite Hup. cbn [snd].
  destruct (listable fs) eqn:Hl.
  2:{ unfold files, Os.listdir in Hcount. rewrite Hl in Hcount. discriminate. }
  rewrite (files_count H app_config fs _
             ltac:(unfold Os.listdir; by rewrite Hl)) in Hcount.
  injection Hcount as <-.
  rewrite (files_count H app_config _ (map_to_list
             (<[name := Plain (RegularFile (stream file) (written o))]>
                (entries fs))).*1)
    by (unfold Os.listdir; cbn [listable Os.with_entries entries]; by rewrite Hl).
  do 3 f_equal.
  rewrite (filter_length_perm _ _ (name :: (map_to_list (entries fs)).*1)).
  2:{ change (name :: (map_to_list (entries fs)).*1)
        with (((name, Plain (RegularFile (stream file) (written o)))
               :: map_to_list (entries fs)).*1).
      apply fmap_Permutation. by apply map_to_list_insert. }
  destruct (unique_filename_head H (uuid4 o) (now o) (filename file))
    as (c & rest & Hhd & Hc).
  fold name in Hhd. apply contains_plain in Hc as (_ & _ & Hslash).
  cbn [List.filter].
  assert (Hnew : Os.isfile (UPLOAD_FOLDER app_config)
    (Os.with_entries fs
       (<[name := Plain (RegularFile (stream file) (written o))]> (entries fs)))
    (Os.path_join (UPLOAD_FOLDER app_config) name) = true).
  { unfold Os.isfile, Os.resolve.
    rewrite locate_join_entry;
      [|rewrite Hhd; discriminate|by eapply head_not_slash].
    cbn [entries Os.with_entries]. by rewrite lookup_insert_eq. }
  rewrite Hnew. cbn [length].
  rewrite (filter_ext_in _
    (fun n => Os.isfile (UPLOAD_FOLDER app_config) fs
                (Os.path_join (UPLOAD_FOLDER app_config) n)));
    [rewrite Nat2Z.inj_succ; reflexivity|].
  intros n Hn. apply list_elem_of_In, list_elem_of_fmap in Hn as ([n' nd] & -> & Hin).
  apply elem_of_map_to_list in Hin. cbn [fst].
  destruct (Hplain n' ltac:(eexists; exact Hin)) as [Hne Hsep].
  apply isfile_other; [exact Hne|exact Hsep|]. intros ->. congruence.
Qed.

(** X18. Upload followed by Delete of the reported name gives the folder
    back: for an accepted file within the size limit, stored under a fresh
    name of at most [NAME_MAX] bytes, Delete answers 200, echoes the
    storage name, and the folder is exactly what it was before the
    upload. *)
Theorem upload_then_delete_restores (file : file_storage) (o : occasion)
    (fs : filesystem) :
  let name := generate_unique_filename H (uuid4 o) (now o) (filename file) in
  allowed_file H app_config (filename file) = true ->
  (size_of file <= MAX_FILE_SIZE app_config)%Z ->
  (Os.name_bytes name <= Os.NAME_MAX)%nat ->
  entries fs !! name = None ->
  delete_ H app_config name (upload H app_config (Some file) o fs).2
  = (Reply (JDict [(str "message",
                    JStr (check_mark ++ str "File deleted successfully"));
                   (str "filename", JStr name)]) 200, fs).
Proof.
  intros name Ha Hsize Hlen Hfresh.
  assert (Hslot : plain_slot fs name = true)
    by (unfold plain_slot; by rewrite Hfresh).
  destruct (upload_stores H app_config file o fs Ha Hsize Hlen Hslot)
    as (body & Hup & _).
  fold name in Hup. rewrite Hup. cbn [snd].
  destruct (unique_filename_head H (uuid4 o) (now o) (filename file))
    as (c & rest & Hhd & Hc).
  fold name in Hhd. apply contains_plain in Hc as (_ & _ & Hslash).
  assert (Hne : name <> []) by (rewrite Hhd; discriminate).
  assert (Hrel : Py.startswith name (str "/") = false)
    by (by eapply head_not_slash).
  pose proof (unique_filename_fixed H (uuid4 o) (now o) (filename file) Ha)
    as Hfix.
  fold name in Hfix.
  unfold delete_. cbv zeta. rewrite Hfix.
  rewrite realpath_plain_entry;
    [|exact Hne|exact Hrel
     |cbn [entries Os.with_entries]; rewrite lookup_insert_eq; congruence].
  cbn [negb]. unfold Os.exists_, Os.remove, Os.resolve.
  rewrite (locate_join_entry _ _ Hne Hrel).
  cbn [entries Os.with_entries]. rewrite lookup_insert_eq.
  rewrite bool_decide_eq_true_2 by (eexists; reflexivity). cbn [negb].
  rewrite (delete_insert_id _ _ _ Hfresh).
  destruct fs. reflexivity.
Qed.

End UploadComposedApp.

Lemma empty_store_names_plain : entry_names_plain empty_store.
Proof.
  intros n [nd Hn]. unfold empty_store in Hn. cbn [entries] in Hn.
  rewrite lookup_empty in Hn. discriminate.
Qed.

Lemma empty_store_no_link (n real : pystr) (target : option obj) :
  entries empty_store !! n <> Some (Symlink real target).
Proof. unfold empty_store. cbn [entries]. by rewrite lookup_empty. Qed.

Lemma upload_adds_one_file_witness :
  allowed_file plain_host app_config (filename photo) = true
  /\ (size_of photo <= MAX_FILE_SIZE app_config)%Z
  /\ (Os.name_bytes
        (generate_unique_filename plain_host (uuid4 sample_occasion)
           (now sample_occasion) (filename photo)) <= Os.NAME_MAX)%nat
  /\ entries empty_store
       !! generate_unique_filename plain_host (uuid4 sample_occasion)
            (now sample_occasion) (filename photo) = None
  /\ entry_names_plain empty_store
  /\ body_field (str "total_files") (files plain_host app_config empty_store)
     = Some (JNum (PInt 0))
  /\ body_field (str "total_files")
       (files plain_host app_config
          (upload plain_host app_config (Some photo) sample_occasion
             empty_store).2)
     = Some (JNum (PInt (0 + 1))).
Proof.
  split; [reflexivity|]. split; [vm_compute; discriminate|].
  split; [vm_compute; lia|].
  split; [reflexivity|]. split; [exact empty_store_names_plain|].
  split; [reflexivity|].
  apply (upload_adds_one_file plain_host photo sample_occasion
           empty_store 0);
    [reflexivity | vm_compute; discriminate | vm_compute; lia | reflexivity
    | exact empty_store_names_plain
    | intros n target; apply empty_store_no_link | reflexivity].
Defined.

Lemma upload_then_delete_restores_witness :
  allowed_file plain_host app_config (filename photo) = true
  /\ (size_of photo <= MAX_FILE_SIZE app_config)%Z
  /\ (Os.name_bytes
        (generate_unique_filename plain_host (uuid4 sample_occasion)
           (now sample_occasion) (filename photo)) <= Os.NAME_MAX)%nat
  /\ entries mixed_store
       !! generate_unique_filename plain_host (uuid4 sample_occasion)
            (now sample_occasion) (filename photo) = None
  /\ delete_ plain_host app_config
       (generate_unique_filename plain_host (uuid4 sample_occasion)
          (now sample_occasion) (filename photo))
       (upload plain_host app_config (Some photo) sample_occasion
          mixed_store).2
     = (Reply (JDict [(str "message",
                       JStr (check_mark ++ str "File deleted successfully"));
                      (str "filename",
                       JStr (generate_unique_filename plain_host
                               (uuid4 sample_occasion) (now sample_occasion)
                               (filename photo)))]) 200,
        mixed_store).
Proof.
  split; [reflexivity|]. split; [vm_compute; discriminate|].
  split; [vm_compute; lia|]. split; [reflexivity|].
  apply (upload_then_delete_restores plain_host photo sample_occasion
           mixed_store);
    [reflexivity | vm_compute; discriminate | vm_compute; lia | reflexivity].
Defined.

(** ** The answers of the handlers, case by case *)

Section Answers.
Variable H : host.
Variable cfg : config.

(** X19. The refusals of Upload with the status 400, in the order of the
    source: no file in the request, then an empty file name whatever the
    stream holds, then, for a named file within the size limit, a type
    that [allowed_file] refuses, answered with the list of allowed types.
    Nothing else is answered 400. *)
Theorem upload_refusals (files : option file_storage) (o : occasion)
    (fs : filesystem) :
  (files = None ->
   upload H cfg files o fs
   = (Reply (JDict [(str "error", JStr (str "No file provided"))]) 400, fs))
  /\ (forall file, files = Some file -> filename file = [] ->
      upload H cfg files o fs
      = (Reply (JDict [(str "error", JStr (str "No file selected"))]) 400, fs))
  /\ (forall file, files = Some file -> filename file <> [] ->
      (size_of file <= MAX_FILE_SIZE cfg)%Z ->
      allowed_file H cfg (filename file) = false ->
      upload H cfg files o fs
      = (Reply (JDict [(str "error", JStr (str "File type not allowed"));
                       (str "allowed_types",
                        JList (map JStr (ALLOWED_EXTENSIONS cfg)))]) 400, fs))
  /\ (status (upload H cfg files o fs).1 = Some 400%Z ->
      files = None
      \/ exists file, files = Some file
           /\ (filename file = []
               \/ ((size_of file <= MAX_FILE_SIZE cfg)%Z
                   /\ allowed_file H cfg (filename file) = false))).
Proof.
  split; [|split; [|split]].
  - intros ->. reflexivity.
  - intros file -> Hname. unfold upload.
    by rewrite bool_decide_eq_true_2 by exact Hname.
  - intros file -> Hname Hsize Ha. unfold upload.
    rewrite bool_decide_eq_false_2 by exact Hname. fold (size_of file).
    destruct (Z.gtb_spec (size_of file) (MAX_FILE_SIZE cfg)); [lia|].
    by rewrite Ha.
  - unfold upload. destruct files as [file|]; [|by left].
    intros Hst. right. exists file. split; [reflexivity|].
    case_bool_decide as Hname; [by left|]. right. revert Hst.
    fold (size_of file).
    destruct (Z.gtb_spec (size_of file) (MAX_FILE_SIZE cfg)) as [Hgt|Hle];
      [discriminate|].
    destruct (allowed_file H cfg (filename file)); cbn [negb]; [|by split].
    destruct (Os.save _ _ _ _ _); [|discriminate].
    destruct (get_file_size_mb _ _ _); discriminate.
Qed.

(** X20. Download by kind of entry. For a non-empty sanitised name:
    nothing under the name is answered 404; a regular file is served with
    its content; a directory makes [send_file] raise; a link is refused
    with 403 unless its canonical path starts with that of the folder, and
    is then treated as what it leads to, a dangling link being answered
    404. *)
Theorem download_by_entry (name : pystr) (fs : filesystem) :
  secure_filename H name <> [] ->
  let path := Os.path_join (UPLOAD_FOLDER cfg) (secure_filename H name) in
  let serve (target : option obj) :=
    match target with
    | None => Reply not_found 404
    | Some (RegularFile data _) => Attachment path data
    | Some Directory => Raised
    end in
  download H cfg name fs
  = match entries fs !! secure_filename H name with
    | None => serve None
    | Some (Plain o) => serve (Some o)
    | Some (Symlink real target) =>
        if Py.startswith real (upload_real fs) then serve target
        else Reply access_denied 403
    end.
Proof.
  intros Hne path serve.
  pose proof (secure_filename_relative H name) as Hrel.
  destruct (entries fs !! secure_filename H name)
    as [[o|real target]|] eqn:E.
  - unfold download. cbv zeta.
    rewrite realpath_plain_entry by (done || congruence). cbn [negb].
    unfold Os.exists_, Os.read, Os.regular, Os.resolve.
    rewrite (locate_join_entry _ _ Hne Hrel), E.
    rewrite bool_decide_eq_true_2 by (eexists; reflexivity).
    by destruct o.
  - unfold download. cbv zeta. rewrite realpath_folder.
    unfold Os.realpath, Os.exists_, Os.read, Os.regular, Os.resolve.
    rewrite (locate_join_entry _ _ Hne Hrel), E.
    destruct (Py.startswith real (upload_real fs)); [|reflexivity].
    destruct target as [[data mtime|]|]; cbn [negb].
    + by rewrite bool_decide_eq_true_2 by (eexists; reflexivity).
    + by rewrite bool_decide_eq_true_2 by (eexists; reflexivity).
    + by rewrite bool_decide_eq_false_2 by (intros [? ?]; discriminate).
  - apply absent_name_not_found; done.
Qed.

(** X21. Delete by kind of entry. For a non-empty sanitised name: nothing
    under the name is answered 404; a regular file is unlinked with 200; a
    directory makes [os.remove] fail, which is caught and answered 500
    with the folder unchanged; a link is refused with 403 unless its
    canonical path starts with that of the folder, a dangling one is then
    answered 404, and any other is unlinked with 200. *)
Theorem delete_by_entry (name : pystr) (fs : filesystem) :
  secure_filename H name <> [] ->
  let gone :=
    (Reply (JDict [(str "message",
                    JStr (check_mark ++ str "File deleted successfully"));
                   (str "filename", JStr (secure_filename H name))]) 200,
     Os.with_entries fs (delete (secure_filename H name) (entries fs))) in
  delete_ H cfg name fs
  = match entries fs !! secure_filename H name with
    | None => (Reply not_found 404, fs)
    | Some (Plain (RegularFile _ _)) => gone
    | Some (Plain Directory) =>
        (Reply (JDict [(str "error", JStr (str "Failed to delete file"))]) 500,
         fs)
    | Some (Symlink real target) =>
        if Py.startswith real (upload_real fs) then
          match target with
          | None => (Reply not_found 404, fs)
          | Some _ => gone
          end
        else (Reply access_denied 403, fs)
    end.
Proof.
  intros Hne gone.
  pose proof (secure_filename_relative H name) as Hrel.
  destruct (entries fs !! secure_filename H name)
    as [[o|real target]|] eqn:E.
  - unfold delete_. cbv zeta.
    rewrite realpath_plain_entry by (done || congruence). cbn [negb].
    unfold Os.exists_, Os.remove, Os.resolve.
    rewrite (locate_join_entry _ _ Hne Hrel), E.
    rewrite bool_decide_eq_true_2 by (eexists; reflexivity).
    by destruct o.
  - unfold delete_. cbv zeta. rewrite realpath_folder.
    unfold Os.realpath, Os.exists_, Os.remove, Os.resolve.
    rewrite (locate_join_entry _ _ Hne Hrel), E.
    destruct (Py.startswith real (upload_real fs)); [|reflexivity].
    destruct target as [o|]; cbn [negb].
    + by rewrite bool_decide_eq_true_2 by (eexists; reflexivity).
    + by rewrite bool_decide_eq_false_2 by (intros [? ?]; discriminate).
  - apply absent_name_not_found; done.
Qed.


End Answers.




Lemma download_by_entry_witness :
  secure_filename plain_host (str "old") <> []
  /\ download plain_host app_config (str "old") mixed_store = Raised.
Proof.
  split; [discriminate|].
  apply (download_by_entry plain_host app_config (str "old") mixed_store).
  discriminate.
Defined.

Lemma delete_by_entry_witness :
  secure_filename plain_host (str "old") <> []
  /\ delete_ plain_host app_config (str "old") mixed_store
     = (Reply (JDict [(str "error", JStr (str "Failed to delete file"))]) 500,
        mixed_store).
Proof.
  split; [discriminate|].
  apply (delete_by_entry plain_host app_config (str "old") mixed_store).
  discriminate.
Defined.

(** The answer of [upload] to an oversized file is the answer of the
    handler registered for 413. *)
Lemma upload_too_large_as_handler (H : host) (cfg : config)
    (file : file_storage) (o : occasion) (fs : filesystem) :
  filename file <> [] -> (size_of file > MAX_FILE_SIZE cfg)%Z ->
  (upload H cfg (Some file) o fs).1 = file_too_large cfg.
Proof.
  intros Hname Hsize. by rewrite (upload_too_large H cfg file o fs Hname Hsize).
Qed.
